(** * Monify agent: sampling-and-aggregation engine and agent control loop

    A shallow embedding of the Go packages [internal/metrics/dynamic]
    (the four background samplers and their reducers),
    [internal/agent] (the dynamic orchestrator and the agent loop) and of
    the parts of [pkg/models] and [internal/sender] they use.

    Conventions of the embedding.
    - [uint64] is [Z] with the wrap-around modulo 2^64 written out
      ([u64_add], [u64_sub]); [uint64 / uint64] is [Z.div].
    - [float64] is modelled by the exact rationals [Qc]: the reducers are
      followed operation by operation, IEEE rounding is not modelled.
    - [time.Time] is a number of nanoseconds ([Z]); [Duration.Seconds()]
      divides by 10^9.
    - A Go [(value, error)] return is a [result]; a Go [map[string]T] is a
      [gmap string T]; a slice is a [list].
    - Every access to a sampler's buffer happens under the sampler's mutex,
      so a sample tick and a Collect are atomic steps on the sampler state;
      operating-system queries are inputs of the step that performs them. *)

From Stdlib Require Import ZArith QArith Qcanon Lia.
From stdpp Require Import base numbers list strings gmap fin_maps.

Local Open Scope Z_scope.

(** ** Go runtime notions *)

Abbreviation float64 := Qc.

Definition two64 : Z := 2 ^ 64.
Definition u64_add (a b : Z) : Z := (a + b) mod two64.
Definition u64_sub (a b : Z) : Z := (a - b) mod two64.

(** [error] values: the sentinel [sender.ErrUnauthorized], any other error,
    and [fmt.Errorf("...: %w", err)] wrapping. *)
Inductive error : Type :=
| ErrUnauthorized
| ErrOther (msg : string)
| ErrWrap (msg : string) (inner : error).

Global Instance error_eq_dec : EqDecision error.
Proof. solve_decision. Defined.


Inductive result (A : Type) : Type :=
| Ok (a : A)
| Err (e : error).
Arguments Ok {A} a.
Arguments Err {A} e.

(** [Duration.Seconds()] of the difference of two timestamps. *)
Definition nanosPerSecond : Z := 1000000000.
Definition Seconds (later earlier : Z) : float64 :=
  (Qc_of_Z (later - earlier) / Qc_of_Z nanosPerSecond)%Qc.

(** ** The history buffer shared by the four samplers (cpu.go) *)

Definition maxSamples : nat := 600.

(** [buf = append(buf, x); if len(buf) > maxSamples
     { buf = buf[len(buf)-maxSamples:] }] *)
Definition append_capped {A} (buf : list A) (x : A) : list A :=
  let buf' := buf ++ [x] in
  if decide (maxSamples < length buf')%nat
  then drop (length buf' - maxSamples) buf'
  else buf'.

(** ** gopsutil values read by the samplers *)

Module load.
Record AvgStat := { Load1 : float64; Load5 : float64; Load15 : float64 }.
End load.

Module mem.
Record VirtualMemoryStat := {
  Total : Z; Used : Z; Free : Z; Available : Z;
  UsedPercent : float64; Cached : Z; Buffers : Z }.
End mem.

Module disk.
Record IOCountersStat := {
  ReadBytes : Z; WriteBytes : Z; ReadCount : Z; WriteCount : Z }.
End disk.

Module gopsutilNet.
Record IOCountersStat := {
  Name : string; BytesSent : Z; BytesRecv : Z;
  Errin : Z; Errout : Z; Dropin : Z; Dropout : Z }.
End gopsutilNet.

(** ** pkg/models/metrics.go *)

Module models.
Record CPUMetrics := {
  UsagePercent : float64;
  LoadAvg1m : float64; LoadAvg5m : float64; LoadAvg15m : float64 }.

Record MemoryMetrics := {
  Total : Z; Used : Z; Free : Z; Available : Z;
  MemUsedPercent : float64; Cached : Z; Buffers : Z }.

Record SwapMetrics := {
  SwapTotal : Z; SwapUsed : Z; SwapUsedPercent : float64 }.

Record DiskSpaceMetrics := {
  DiskTotal : Z; DiskUsed : Z; DiskFree : Z; DiskUsedPercent : float64 }.

Record DiskIOMetrics := {
  ReadMBps : float64; WriteMBps : float64;
  ReadIOPS : float64; WriteIOPS : float64 }.

Record NetworkAggregateMetrics := {
  SendMbps : float64; RecvMbps : float64;
  TotalSentGB : float64; TotalRecvGB : float64 }.

Record NetworkHealthMetrics := {
  ErrorsIn : Z; ErrorsOut : Z; DropsIn : Z; DropsOut : Z }.

Record SystemMetrics := {
  Uptime : Z; BootTime : Z; ProcessCount : Z }.

(** Every field is a pointer with [omitempty]: [None] is [nil]. *)
Record DynamicMetrics := {
  CPU : option CPUMetrics;
  Memory : option MemoryMetrics;
  Swap : option SwapMetrics;
  DiskSpace : option DiskSpaceMetrics;
  DiskIO : option DiskIOMetrics;
  NetworkPublic : option NetworkAggregateMetrics;
  NetworkPrivate : option NetworkAggregateMetrics;
  NetworkHealth : option NetworkHealthMetrics;
  System : option SystemMetrics }.

Record ServerCommand := { Command : string }.
Record ServerResponse := { Status : string; Commands : list ServerCommand }.
End models.

(** ** internal/metrics/dynamic/cpu.go *)

Module CPUCollector.
Record cpuSample := { usagePercent : float64; timestamp : Z }.

Record t := { samples : list cpuSample }.

Definition New : t := {| samples := [] |}.

(** One tick of the background loop. [percentages] is what
    [cpu.Percent(0, false)] returned, [now] is [time.Now()]. *)
Definition sample (percentages : result (list float64)) (now : Z) (c : t) : t :=
  match percentages with
  | Err _ => c
  | Ok [] => c
  | Ok (p0 :: _) =>
      {| samples := append_capped (samples c)
                      {| usagePercent := p0; timestamp := now |} |}
  end.

(** The locked block of [Collect]: copy the buffer out, reset it. *)
Definition drain (c : t) : list cpuSample * t :=
  (samples c, {| samples := [] |}).

Definition avgUsage (batch : list cpuSample) : float64 :=
  if decide (0 < length batch)%nat
  then (foldl (λ sum s, sum + usagePercent s) 0 batch
        / Qc_of_Z (Z.of_nat (length batch)))%Qc
  else 0%Qc.

(** [loadAvg] is what [load.AvgWithContext(ctx)] returned. *)
Definition Collect (loadAvg : result load.AvgStat) (c : t)
  : result models.CPUMetrics * t :=
  match loadAvg with
  | Err e => (Err e, c)
  | Ok la =>
      let '(batch, c') := drain c in
      (Ok {| models.UsagePercent := avgUsage batch;
             models.LoadAvg1m := load.Load1 la;
             models.LoadAvg5m := load.Load5 la;
             models.LoadAvg15m := load.Load15 la |}, c')
  end.
End CPUCollector.

(** ** package dynamic: the memory sampler *)

Module MemoryCollector.
Record memorySample := {
  total : Z; used : Z; free : Z; available : Z;
  usedPercent : float64; cached : Z; buffers : Z; timestamp : Z }.

Record t := { samples : list memorySample }.

Definition New : t := {| samples := [] |}.

(** [vmem] is what [mem.VirtualMemory()] returned. *)
Definition sample (vmem : result mem.VirtualMemoryStat) (now : Z) (m : t) : t :=
  match vmem with
  | Err _ => m
  | Ok v =>
      {| samples := append_capped (samples m)
           {| total := mem.Total v; used := mem.Used v; free := mem.Free v;
              available := mem.Available v;
              usedPercent := mem.UsedPercent v;
              cached := mem.Cached v; buffers := mem.Buffers v;
              timestamp := now |} |}
  end.

Definition drain (m : t) : list memorySample * t :=
  (samples m, {| samples := [] |}).

(** [var sum uint64; for _, s := range samples { sum += s.field }] *)
Definition sum_u64 (field : memorySample → Z) (batch : list memorySample) : Z :=
  foldl (λ sum s, u64_add sum (field s)) 0 batch.

Definition sum_f64 (field : memorySample → float64) (batch : list memorySample)
  : float64 :=
  foldl (λ sum s, (sum + field s)%Qc) 0%Qc batch.

(** The metrics built from one instantaneous query. *)
Definition instant (v : mem.VirtualMemoryStat) : models.MemoryMetrics :=
  {| models.Total := mem.Total v; models.Used := mem.Used v;
     models.Free := mem.Free v;
     models.Available := mem.Available v;
     models.MemUsedPercent := mem.UsedPercent v;
     models.Cached := mem.Cached v;
     models.Buffers := mem.Buffers v |}.

(** [vmem] is what the fallback [mem.VirtualMemoryWithContext(ctx)]
    returns; it is consulted only when the drained batch is empty. *)
Definition Collect (vmem : result mem.VirtualMemoryStat) (m : t)
  : result models.MemoryMetrics * t :=
  let '(batch, m') := drain m in
  if decide (length batch = 0)%nat then
    match vmem with
    | Err e => (Err e, m')
    | Ok v => (Ok (instant v), m')
    end
  else
    let count := Z.of_nat (length batch) in
    (Ok {| models.Total := sum_u64 total batch / count;
           models.Used := sum_u64 used batch / count;
           models.Free := sum_u64 free batch / count;
           models.Available := sum_u64 available batch / count;
           models.MemUsedPercent :=
             (sum_f64 usedPercent batch / Qc_of_Z count)%Qc;
           models.Cached := sum_u64 cached batch / count;
           models.Buffers := sum_u64 buffers batch / count |}, m').
End MemoryCollector.

(** ** internal/metrics/dynamic/disk_space.go: the disk I/O sampler *)

Definition MiBdiv (x : float64) : float64 :=
  (x / Qc_of_Z 1024 / Qc_of_Z 1024)%Qc.

Module DiskIOCollector.
Record ioStats := {
  readBytes : Z; writeBytes : Z; readCount : Z; writeCount : Z }.

Record diskIOSample := { devices : gmap string ioStats; timestamp : Z }.

Record t := { samples : list diskIOSample }.

Definition New : t := {| samples := [] |}.

Definition toStats (counters : disk.IOCountersStat) : ioStats :=
  {| readBytes := disk.ReadBytes counters;
     writeBytes := disk.WriteBytes counters;
     readCount := disk.ReadCount counters;
     writeCount := disk.WriteCount counters |}.

(** [ioCounters] is what [disk.IOCounters()] returned. *)
Definition sample (ioCounters : result (gmap string disk.IOCountersStat))
    (now : Z) (d : t) : t :=
  match ioCounters with
  | Err _ => d
  | Ok counters =>
      {| samples := append_capped (samples d)
           {| devices := toStats <$> counters; timestamp := now |} |}
  end.

Definition drain (d : t) : list diskIOSample * t :=
  (samples d, {| samples := [] |}).

(** The four [uint64] accumulators of one pair. *)
Record deltas := {
  readBytesDelta : Z; writeBytesDelta : Z;
  readCountDelta : Z; writeCountDelta : Z }.

Definition noDeltas : deltas :=
  {| readBytesDelta := 0; writeBytesDelta := 0;
     readCountDelta := 0; writeCountDelta := 0 |}.

(** Body of [for device, currStats := range curr.devices]. *)
Definition addDevice (prev : gmap string ioStats)
    (device : string) (currStats : ioStats) (acc : deltas) : deltas :=
  match prev !! device with
  | Some prevStats =>
      {| readBytesDelta := u64_add (readBytesDelta acc)
           (u64_sub (readBytes currStats) (readBytes prevStats));
         writeBytesDelta := u64_add (writeBytesDelta acc)
           (u64_sub (writeBytes currStats) (writeBytes prevStats));
         readCountDelta := u64_add (readCountDelta acc)
           (u64_sub (readCount currStats) (readCount prevStats));
         writeCountDelta := u64_add (writeCountDelta acc)
           (u64_sub (writeCount currStats) (writeCount prevStats)) |}
  | None => acc
  end.

Definition pairDeltas (prev curr : diskIOSample) : deltas :=
  map_fold (addDevice (devices prev)) noDeltas (devices curr).

(** The running totals of the outer loop. *)
Record totals := {
  totalReadMBps : float64; totalWriteMBps : float64;
  totalReadIOPS : float64; totalWriteIOPS : float64;
  rateCount : nat }.

Definition noTotals : totals :=
  {| totalReadMBps := 0; totalWriteMBps := 0;
     totalReadIOPS := 0; totalWriteIOPS := 0; rateCount := 0 |}.

(** One iteration of the outer loop, on [prev := samples[i-1]] and
    [curr := samples[i]]. *)
Definition addPair (acc : totals) (prev curr : diskIOSample) : totals :=
  let duration := Seconds (timestamp curr) (timestamp prev) in
  if decide (duration ≤ 0)%Qc then acc
  else
    let d := pairDeltas prev curr in
    let readMBps := MiBdiv (Qc_of_Z (readBytesDelta d) / duration) in
    let writeMBps := MiBdiv (Qc_of_Z (writeBytesDelta d) / duration) in
    let readIOPS := (Qc_of_Z (readCountDelta d) / duration)%Qc in
    let writeIOPS := (Qc_of_Z (writeCountDelta d) / duration)%Qc in
    {| totalReadMBps := totalReadMBps acc + readMBps;
       totalWriteMBps := totalWriteMBps acc + writeMBps;
       totalReadIOPS := totalReadIOPS acc + readIOPS;
       totalWriteIOPS := totalWriteIOPS acc + writeIOPS;
       rateCount := S (rateCount acc) |}.

(** Body of [for i := 1; i < len(samples); i++]. *)
Definition loopBody (batch : list diskIOSample) (acc : totals) (i : nat)
  : totals :=
  match batch !! (i - 1)%nat, batch !! i with
  | Some prev, Some curr => addPair acc prev curr
  | _, _ => acc
  end.

Definition zeroMetrics : models.DiskIOMetrics :=
  {| models.ReadMBps := 0; models.WriteMBps := 0;
     models.ReadIOPS := 0; models.WriteIOPS := 0 |}.

(** The reducer applied to the drained batch. *)
Definition reduce (batch : list diskIOSample) : models.DiskIOMetrics :=
  if decide (length batch < 2)%nat then zeroMetrics
  else
    let acc := foldl (loopBody batch) noTotals
                 (seq 1 (length batch - 1)) in
    if decide (0 < rateCount acc)%nat then
      let n := Qc_of_Z (Z.of_nat (rateCount acc)) in
      {| models.ReadMBps := totalReadMBps acc / n;
         models.WriteMBps := totalWriteMBps acc / n;
         models.ReadIOPS := totalReadIOPS acc / n;
         models.WriteIOPS := totalWriteIOPS acc / n |}
    else zeroMetrics.

Definition Collect (d : t) : result models.DiskIOMetrics * t :=
  let '(batch, d') := drain d in (Ok (reduce batch), d').
End DiskIOCollector.

(** ** The parts of Go's [net] package that [classifyInterface] calls *)

Module net.
(** [net.IP] is a byte slice of length 4 or 16. *)
Abbreviation IP := (list Z).

Record IPNet := { NetIP : IP; Mask : list Z }.

Definition IPv6loopback : IP := replicate 15 0 ++ [1].
Definition IPv6unspecified : IP := replicate 16 0.

Definition To4 (ip : IP) : option IP :=
  if decide (length ip = 4%nat) then Some ip
  else if decide (length ip = 16%nat ∧ take 10 ip = replicate 10 0
                  ∧ ip !! 10%nat = Some 255 ∧ ip !! 11%nat = Some 255)
       then Some (drop 12 ip)
       else None.

Definition IsLoopback (ip : IP) : bool :=
  match To4 ip with
  | Some ip4 => bool_decide (ip4 !! 0%nat = Some 127)
  | None => bool_decide (ip = IPv6loopback)
  end.

Definition IsUnspecified (ip : IP) : bool :=
  bool_decide (To4 ip = Some [0; 0; 0; 0])
  || bool_decide (ip = IPv6unspecified).

Definition Contains (n : IPNet) (ip : IP) : bool :=
  let ip := default ip (To4 ip) in
  if decide (length ip = length (NetIP n)) then
    forallb (λ '(nn, m, b), bool_decide (Z.land nn m = Z.land b m))
            (zip (zip (NetIP n) (Mask n)) ip)
  else false.

(** One entry of [iface.Addrs()]: its [String()], the IP that
    [net.ParseCIDR] extracts from it ([None] when it returns an error)
    and the result of [net.ParseIP] on it ([None] for [nil]). *)
Record Addr := {
  String : string; ParseCIDR : option IP; ParseIP : option IP }.

Record Interface := { Addrs : result (list Addr) }.

(** The state of the host's interfaces at one instant:
    [net.InterfaceByName]. *)
Abbreviation Host := (string → result Interface).
End net.

(** ** internal/metrics/dynamic/network.go *)

Module NetworkCollector.
Record networkStats := {
  bytesSent : Z; bytesRecv : Z;
  errorsIn : Z; errorsOut : Z; dropsIn : Z; dropsOut : Z }.

Record networkSample := {
  interfaces : gmap string networkStats; timestamp : Z }.

Record t := {
  samples : list networkSample;
  interfaceTypes : gmap string string }.

Definition New : t := {| samples := []; interfaceTypes := ∅ |}.

(** "10.0.0.0/8", "172.16.0.0/12", "192.168.0.0/16", "fd00::/8" as
    [net.ParseCIDR] returns them. *)
Definition privateBlocks : list net.IPNet :=
  [ {| net.NetIP := [10; 0; 0; 0]; net.Mask := [255; 0; 0; 0] |};
    {| net.NetIP := [172; 16; 0; 0]; net.Mask := [255; 240; 0; 0] |};
    {| net.NetIP := [192; 168; 0; 0]; net.Mask := [255; 255; 0; 0] |};
    {| net.NetIP := 253 :: replicate 15 0;
       net.Mask := 255 :: replicate 15 0 |} ].

Definition isPrivateIP (ip : net.IP) : bool :=
  existsb (λ subnet, net.Contains subnet ip) privateBlocks.

(** The [for _, addr := range addrs] loop of [classifyInterface]. *)
Fixpoint classifyAddrs (addrs : list net.Addr) : string :=
  match addrs with
  | [] => "private"
  | addr :: rest =>
      let ip := match net.ParseCIDR addr with
                | Some ip => Some ip
                | None => net.ParseIP addr
                end in
      match ip with
      | Some ip =>
          if negb (net.IsLoopback ip) && negb (net.IsUnspecified ip) then
            if isPrivateIP ip then "private" else "public"
          else classifyAddrs rest
      | None => classifyAddrs rest
      end
  end.

Definition classifyInterface (host : net.Host) (ifaceName : string) : string :=
  match host ifaceName with
  | Err _ => "private"
  | Ok iface =>
      match net.Addrs iface with
      | Err _ => "private"
      | Ok addrs => classifyAddrs addrs
      end
  end.

Definition toStats (counter : gopsutilNet.IOCountersStat) : networkStats :=
  {| bytesSent := gopsutilNet.BytesSent counter;
     bytesRecv := gopsutilNet.BytesRecv counter;
     errorsIn := gopsutilNet.Errin counter;
     errorsOut := gopsutilNet.Errout counter;
     dropsIn := gopsutilNet.Dropin counter;
     dropsOut := gopsutilNet.Dropout counter |}.

(** "Classify interface type on first encounter". *)
Definition observe (host : net.Host) (name : string)
    (types : gmap string string) : gmap string string :=
  match types !! name with
  | Some _ => types
  | None => <[name := classifyInterface host name]> types
  end.

(** Body of [for _, counter := range ioCounters]. *)
Definition sampleStep (host : net.Host)
    (acc : gmap string networkStats * gmap string string)
    (counter : gopsutilNet.IOCountersStat)
  : gmap string networkStats * gmap string string :=
  (<[gopsutilNet.Name counter := toStats counter]> acc.1,
   observe host (gopsutilNet.Name counter) acc.2).

(** [ioCounters] is what [gopsutilNet.IOCounters(true)] returned and
    [host] the interface addresses at the time of the tick. *)
Definition sample (ioCounters : result (list gopsutilNet.IOCountersStat))
    (host : net.Host) (now : Z) (n : t) : t :=
  match ioCounters with
  | Err _ => n
  | Ok counters =>
      let '(interfaces, types) :=
        foldl (sampleStep host) (∅, interfaceTypes n) counters in
      {| samples := append_capped (samples n)
           {| interfaces := interfaces; timestamp := now |};
         interfaceTypes := types |}
  end.

Definition drain (n : t) : list networkSample * t :=
  (samples n, {| samples := []; interfaceTypes := interfaceTypes n |}).

(** [interfaceTypes[ifaceName]]: a missing key reads as the empty string. *)
Definition typeOf (types : gmap string string) (ifaceName : string) : string :=
  default "" (types !! ifaceName).

Definition addTotals (types : gmap string string) (ifaceType : string)
    (ifaceName : string) (stats : networkStats) (acc : Z * Z) : Z * Z :=
  if decide (typeOf types ifaceName = ifaceType)
  then (u64_add acc.1 (bytesSent stats), u64_add acc.2 (bytesRecv stats))
  else acc.

Definition addInterface (types : gmap string string) (ifaceType : string)
    (prev : gmap string networkStats)
    (ifaceName : string) (currStats : networkStats) (acc : Z * Z) : Z * Z :=
  if decide (typeOf types ifaceName ≠ ifaceType) then acc
  else match prev !! ifaceName with
       | Some prevStats =>
           (u64_add acc.1 (u64_sub (bytesSent currStats) (bytesSent prevStats)),
            u64_add acc.2 (u64_sub (bytesRecv currStats) (bytesRecv prevStats)))
       | None => acc
       end.

(** [(sentDelta, recvDelta)] of one pair. *)
Definition pairDeltas (types : gmap string string) (ifaceType : string)
    (prev curr : networkSample) : Z * Z :=
  map_fold (addInterface types ifaceType (interfaces prev)) (0, 0)
           (interfaces curr).

Record totals := {
  totalSendMbps : float64; totalRecvMbps : float64; rateCount : nat }.

Definition noTotals : totals :=
  {| totalSendMbps := 0; totalRecvMbps := 0; rateCount := 0 |}.

Definition Mbps (delta : Z) (duration : float64) : float64 :=
  (Qc_of_Z delta * Qc_of_Z 8 / duration / Qc_of_Z 1000000)%Qc.

(** One iteration of the outer loop, on [prev := samples[i-1]] and
    [curr := samples[i]]. *)
Definition addPair (types : gmap string string) (ifaceType : string)
    (acc : totals) (prev curr : networkSample) : totals :=
  let duration := Seconds (timestamp curr) (timestamp prev) in
  if decide (duration ≤ 0)%Qc then acc
  else
    let d := pairDeltas types ifaceType prev curr in
    {| totalSendMbps := totalSendMbps acc + Mbps d.1 duration;
       totalRecvMbps := totalRecvMbps acc + Mbps d.2 duration;
       rateCount := S (rateCount acc) |}.

(** Body of [for i := 1; i < len(samples); i++]. *)
Definition loopBody (types : gmap string string) (ifaceType : string)
    (batch : list networkSample) (acc : totals) (i : nat) : totals :=
  match batch !! (i - 1)%nat, batch !! i with
  | Some prev, Some curr => addPair types ifaceType acc prev curr
  | _, _ => acc
  end.

Definition zeroMetrics : models.NetworkAggregateMetrics :=
  {| models.SendMbps := 0; models.RecvMbps := 0;
     models.TotalSentGB := 0; models.TotalRecvGB := 0 |}.

Definition reduce (types : gmap string string) (ifaceType : string)
    (batch : list networkSample) : models.NetworkAggregateMetrics :=
  if decide (length batch < 2)%nat then zeroMetrics
  else
    match last batch with
    | None => zeroMetrics
    | Some lastSample =>
        let tot := map_fold (addTotals types ifaceType) (0, 0)
                     (interfaces lastSample) in
        let acc := foldl (loopBody types ifaceType batch) noTotals
                     (seq 1 (length batch - 1)) in
        let n := Qc_of_Z (Z.of_nat (rateCount acc)) in
        {| models.SendMbps :=
             if decide (0 < rateCount acc)%nat
             then (totalSendMbps acc / n)%Qc else 0%Qc;
           models.RecvMbps :=
             if decide (0 < rateCount acc)%nat
             then (totalRecvMbps acc / n)%Qc else 0%Qc;
           models.TotalSentGB := (Qc_of_Z tot.1 / Qc_of_Z 1000000000)%Qc;
           models.TotalRecvGB := (Qc_of_Z tot.2 / Qc_of_Z 1000000000)%Qc |}
    end.

Definition collectByType (ifaceType : string) (n : t)
  : result models.NetworkAggregateMetrics * t :=
  let '(batch, n') := drain n in
  (Ok (reduce (interfaceTypes n) ifaceType batch), n').

Definition CollectPublic (n : t) := collectByType "public" n.
Definition CollectPrivate (n : t) := collectByType "private" n.

Definition addHealth (ifaceName : string) (stats : networkStats)
    (acc : models.NetworkHealthMetrics) : models.NetworkHealthMetrics :=
  {| models.ErrorsIn := u64_add (models.ErrorsIn acc) (errorsIn stats);
     models.ErrorsOut := u64_add (models.ErrorsOut acc) (errorsOut stats);
     models.DropsIn := u64_add (models.DropsIn acc) (dropsIn stats);
     models.DropsOut := u64_add (models.DropsOut acc) (dropsOut stats) |}.

Definition zeroHealth : models.NetworkHealthMetrics :=
  {| models.ErrorsIn := 0; models.ErrorsOut := 0;
     models.DropsIn := 0; models.DropsOut := 0 |}.

(** Reads the latest sample and leaves the buffer as it is. *)
Definition CollectHealth (n : t) : result models.NetworkHealthMetrics * t :=
  match last (samples n) with
  | None => (Ok zeroHealth, n)
  | Some lastSample =>
      (Ok (map_fold addHealth zeroHealth (interfaces lastSample)), n)
  end.
End NetworkCollector.

(** ** The one-shot queries of package dynamic
    (swap, disk_space.go, system_dynamic.go) *)

Module oneshot.
Record SwapMemoryStat := {
  SwapTotal : Z; SwapUsed : Z; SwapUsedPercent : float64 }.

Definition CollectSwap (swap : result SwapMemoryStat)
  : result models.SwapMetrics :=
  match swap with
  | Err e => Err e
  | Ok s => Ok {| models.SwapTotal := SwapTotal s;
                  models.SwapUsed := SwapUsed s;
                  models.SwapUsedPercent := SwapUsedPercent s |}
  end.

Record PartitionStat := { Fstype : string; Mountpoint : string }.
Record UsageStat := { UsageTotal : Z; UsageUsed : Z; UsageFree : Z }.

Definition skipTypes : list string :=
  ["tmpfs"; "devtmpfs"; "devfs"; "proc"; "sysfs"; "cgroup"; "cgroup2";
   "nsfs"; "overlay"; "squashfs"; "iso9660"].

Definition shouldSkipFilesystem (fstype : string) : bool :=
  bool_decide (fstype ∈ skipTypes).

Definition addPartition (usage : string → result UsageStat)
    (acc : Z * Z * Z) (partition : PartitionStat) : Z * Z * Z :=
  if shouldSkipFilesystem (Fstype partition) then acc
  else match usage (Mountpoint partition) with
       | Err _ => acc
       | Ok u => let '(totalSpace, usedSpace, freeSpace) := acc in
                 (u64_add totalSpace (UsageTotal u),
                  u64_add usedSpace (UsageUsed u),
                  u64_add freeSpace (UsageFree u))
       end.

Definition CollectDiskSpace (partitions : result (list PartitionStat))
    (usage : string → result UsageStat) : result models.DiskSpaceMetrics :=
  match partitions with
  | Err e => Err e
  | Ok ps =>
      let '(totalSpace, usedSpace, freeSpace) :=
        foldl (addPartition usage) (0, 0, 0) ps in
      Ok {| models.DiskTotal := totalSpace;
            models.DiskUsed := usedSpace;
            models.DiskFree := freeSpace;
            models.DiskUsedPercent :=
              if decide (0 < totalSpace)
              then (Qc_of_Z usedSpace / Qc_of_Z totalSpace * Qc_of_Z 100)%Qc
              else 0%Qc |}
  end.

Record InfoStat := { InfoUptime : Z; InfoBootTime : Z }.

Definition CollectSystemDynamic (info : result InfoStat)
    (processes : result (list Z)) : result models.SystemMetrics :=
  match info with
  | Err e => Err e
  | Ok i =>
      Ok {| models.Uptime := InfoUptime i;
            models.BootTime := InfoBootTime i;
            models.ProcessCount :=
              match processes with
              | Ok ps => Z.of_nat (length ps)
              | Err _ => 0
              end |}
  end.
End oneshot.

(** ** internal/agent/metrics_dynamic.go *)

Module DynamicCollector.
Record t := {
  cpu : CPUCollector.t;
  memory : MemoryCollector.t;
  diskIO : DiskIOCollector.t;
  network : NetworkCollector.t }.

Definition New : t :=
  {| cpu := CPUCollector.New; memory := MemoryCollector.New;
     diskIO := DiskIOCollector.New; network := NetworkCollector.New |}.

(** What the operating system answers to the instantaneous queries made
    during one [Collect]. *)
Record Probes := {
  loadAvg : result load.AvgStat;
  vmem : result mem.VirtualMemoryStat;
  swap : result oneshot.SwapMemoryStat;
  partitions : result (list oneshot.PartitionStat);
  usage : string → result oneshot.UsageStat;
  hostInfo : result oneshot.InfoStat;
  processes : result (list Z) }.

(** What each [if x, err := ...; err == nil] of [Collect] receives. *)
Record Branches := {
  bCPU : result models.CPUMetrics;
  bMemory : result models.MemoryMetrics;
  bSwap : result models.SwapMetrics;
  bDiskSpace : result models.DiskSpaceMetrics;
  bDiskIO : result models.DiskIOMetrics;
  bNetworkPublic : result models.NetworkAggregateMetrics;
  bNetworkPrivate : result models.NetworkAggregateMetrics;
  bNetworkHealth : result models.NetworkHealthMetrics;
  bSystem : result models.SystemMetrics }.

(** [if x, err := ...; err == nil { result.X = x }] on a zero field. *)
Definition keep {A} (r : result A) : option A :=
  match r with Ok a => Some a | Err _ => None end.

(** [result := &models.DynamicMetrics{}; ...; return result, nil] *)
Definition merge (b : Branches) : models.DynamicMetrics * option error :=
  ({| models.CPU := keep (bCPU b);
      models.Memory := keep (bMemory b);
      models.Swap := keep (bSwap b);
      models.DiskSpace := keep (bDiskSpace b);
      models.DiskIO := keep (bDiskIO b);
      models.NetworkPublic := keep (bNetworkPublic b);
      models.NetworkPrivate := keep (bNetworkPrivate b);
      models.NetworkHealth := keep (bNetworkHealth b);
      models.System := keep (bSystem b) |}, None).


(** The goroutines work on disjoint samplers and disjoint fields of the
    result, so their outcome does not depend on the schedule; the three
    network calls run in sequence inside one goroutine. *)
Definition run (os : Probes) (d : t) : Branches * t :=
  let '(rcpu, cpu') := CPUCollector.Collect (loadAvg os) (cpu d) in
  let '(rmem, memory') := MemoryCollector.Collect (vmem os) (memory d) in
  let '(rio, diskIO') := DiskIOCollector.Collect (diskIO d) in
  let '(rpub, n1) := NetworkCollector.CollectPublic (network d) in
  let '(rpriv, n2) := NetworkCollector.CollectPrivate n1 in
  let '(rhealth, n3) := NetworkCollector.CollectHealth n2 in
  ({| bCPU := rcpu; bMemory := rmem;
      bSwap := oneshot.CollectSwap (swap os);
      bDiskSpace := oneshot.CollectDiskSpace (partitions os) (usage os);
      bDiskIO := rio;
      bNetworkPublic := rpub; bNetworkPrivate := rpriv;
      bNetworkHealth := rhealth;
      bSystem := oneshot.CollectSystemDynamic (hostInfo os) (processes os) |},
   {| cpu := cpu'; memory := memory'; diskIO := diskIO'; network := n3 |}).

Definition Collect (os : Probes) (d : t)
  : (models.DynamicMetrics * option error) * t :=
  let '(b, d') := run os d in (merge b, d').
End DynamicCollector.

(** ** internal/agent: the agent and its control loop *)

Module Agent.
(** The state fields of [Agent] guarded by [mu], the [stopChan], and
    what [Start]/[Stop] did to the collaborators (samplers, sender). *)
Record t := {
  running : bool;
  authFailed : bool;
  hostname : string;
  startTime : option Z;
  lastCollection : option Z;
  lastSend : option Z;
  metricsCount : Z;
  errorCount : Z;
  stopChanClosed : bool;
  samplersRunning : bool;
  senderClosed : bool;
  uninstallsScheduled : nat }.


Definition setHostname (h : string) (a : t) : t :=
  {| running := running a; authFailed := authFailed a; hostname := h;
     startTime := startTime a; lastCollection := lastCollection a;
     lastSend := lastSend a; metricsCount := metricsCount a;
     errorCount := errorCount a; stopChanClosed := stopChanClosed a;
     samplersRunning := samplersRunning a; senderClosed := senderClosed a;
     uninstallsScheduled := uninstallsScheduled a |}.





(** [close(a.stopChan); a.running = false;
     a.dynamicCollector.Stop(); a.sender.Close()] *)
Definition shutDown (a : t) : t :=
  {| running := false; authFailed := authFailed a; hostname := hostname a;
     startTime := startTime a; lastCollection := lastCollection a;
     lastSend := lastSend a; metricsCount := metricsCount a;
     errorCount := errorCount a; stopChanClosed := true;
     samplersRunning := false; senderClosed := true;
     uninstallsScheduled := uninstallsScheduled a |}.


(** What the collaborators answer during one [collectAndSend]: the
    static orchestrator, the dynamic orchestrator and the [Sender]. *)
Record Cycle := {
  shouldRefresh : bool;
  static : result string;          (* [Hostname] of the static metrics *)
  dynamic : models.DynamicMetrics * option error;
  send : result (option models.ServerResponse);
  sendTime : Z }.


(** The static-refresh block at the head of [collectAndSend]. *)
Definition refreshStatic (cy : Cycle) (a : t) : t :=
  if shouldRefresh cy then
    match static cy with
    | Err _ => a
    | Ok h =>
        if bool_decide (hostname a = "") || bool_decide (hostname a ≠ h)
        then setHostname h a else a
    end
  else a.


Inductive StopOutcome :=
| StopDone                (* returned nil *)
| StopNotRunning          (* returned "agent is not running" *)
| StopPanic.              (* close of a closed channel *)

Definition Stop (a : t) : StopOutcome * t :=
  if negb (running a) then (StopNotRunning, a)
  else if stopChanClosed a then (StopPanic, a)
  else (StopDone, shutDown a).



(** Where the goroutine running [Start] is. *)
Inductive Status :=
| Looping
| Returned (err : option error)
| Exited (code : Z)
| Panicked.

(** [cycles] counts the calls of [collectAndSend]. *)
Record Proc := { agent : t; status : Status; cycles : nat }.







(** The four agent states of the specification, read off the fields. *)
Inductive State := NotStarted | Running | AuthFailed | Stopped.

Definition state (a : t) : State :=
  if authFailed a then AuthFailed
  else if running a then Running
  else match startTime a with
       | None => NotStarted
       | Some _ => Stopped
       end.
End Agent.

(** ** Interleavings of sample ticks and Collect calls, per sampler *)

Module Ops.
Inductive CPUOp :=
| CPUTick (percentages : result (list float64)) (now : Z)
| CPUCollect (loadAvg : result load.AvgStat).

Definition CPUStep (c : CPUCollector.t) (op : CPUOp) : CPUCollector.t :=
  match op with
  | CPUTick percentages now => CPUCollector.sample percentages now c
  | CPUCollect loadAvg => (CPUCollector.Collect loadAvg c).2
  end.

Inductive MemoryOp :=
| MemoryTick (vmem : result mem.VirtualMemoryStat) (now : Z)
| MemoryCollect (vmem : result mem.VirtualMemoryStat).

Definition MemoryStep (m : MemoryCollector.t) (op : MemoryOp)
  : MemoryCollector.t :=
  match op with
  | MemoryTick vmem now => MemoryCollector.sample vmem now m
  | MemoryCollect vmem => (MemoryCollector.Collect vmem m).2
  end.

Inductive DiskIOOp :=
| DiskIOTick (ioCounters : result (gmap string disk.IOCountersStat)) (now : Z)
| DiskIOCollect.

Definition DiskIOStep (d : DiskIOCollector.t) (op : DiskIOOp)
  : DiskIOCollector.t :=
  match op with
  | DiskIOTick ioCounters now => DiskIOCollector.sample ioCounters now d
  | DiskIOCollect => (DiskIOCollector.Collect d).2
  end.

Inductive NetworkOp :=
| NetworkTick (ioCounters : result (list gopsutilNet.IOCountersStat))
              (host : net.Host) (now : Z)
| NetworkCollectByType (ifaceType : string)
| NetworkCollectHealth.

Definition NetworkStep (n : NetworkCollector.t) (op : NetworkOp)
  : NetworkCollector.t :=
  match op with
  | NetworkTick ioCounters host now =>
      NetworkCollector.sample ioCounters host now n
  | NetworkCollectByType ifaceType =>
      (NetworkCollector.collectByType ifaceType n).2
  | NetworkCollectHealth => (NetworkCollector.CollectHealth n).2
  end.

(** A tick takes a measurement unless the query fails (and, for the CPU,
    unless it returns no percentage). *)
Definition CPUMeasured (op : CPUOp) : bool :=
  match op with
  | CPUTick (Ok (_ :: _)) _ => true
  | _ => false
  end.

Definition MemoryMeasured (op : MemoryOp) : bool :=
  match op with MemoryTick (Ok _) _ => true | _ => false end.

Definition DiskIOMeasured (op : DiskIOOp) : bool :=
  match op with DiskIOTick (Ok _) _ => true | _ => false end.

Definition NetworkMeasured (op : NetworkOp) : bool :=
  match op with NetworkTick (Ok _) _ _ => true | _ => false end.

Definition CPUIsTick (op : CPUOp) : bool :=
  match op with CPUTick _ _ => true | _ => false end.
Definition MemoryIsTick (op : MemoryOp) : bool :=
  match op with MemoryTick _ _ => true | _ => false end.
Definition DiskIOIsTick (op : DiskIOOp) : bool :=
  match op with DiskIOTick _ _ => true | _ => false end.
Definition NetworkIsTick (op : NetworkOp) : bool :=
  match op with NetworkTick _ _ _ => true | _ => false end.

(** Sequences of sample ticks only, given by what each tick reads. *)
Definition CPUTicks (ticks : list (result (list float64) * Z))
  : list CPUOp :=
  (λ tick, CPUTick tick.1 tick.2) <$> ticks.

Definition MemoryTicks (ticks : list (result mem.VirtualMemoryStat * Z))
  : list MemoryOp :=
  (λ tick, MemoryTick tick.1 tick.2) <$> ticks.

Definition DiskIOTicks
    (ticks : list (result (gmap string disk.IOCountersStat) * Z))
  : list DiskIOOp :=
  (λ tick, DiskIOTick tick.1 tick.2) <$> ticks.

Definition NetworkTicks
    (ticks : list (result (list gopsutilNet.IOCountersStat) * net.Host * Z))
  : list NetworkOp :=
  (λ tick, NetworkTick tick.1.1 tick.1.2 tick.2) <$> ticks.

(** Number of measurements taken by a sequence of operations. *)
Definition measurements {Op} (measured : Op → bool) (ops : list Op) : nat :=
  length (filter (λ op, measured op = true) ops).
End Ops.

(** ** The reducers as the specification words them *)

Module Spec.
(** Sum of a list of integers, and of rationals. *)
Definition sumZ (xs : list Z) : Z := foldr Z.add 0 xs.
Definition sumQ (xs : list float64) : float64 := foldr Qcplus 0%Qc xs.

(** Arithmetic mean with truncating division: integer fields. *)
Definition meanTrunc (xs : list Z) : Z := sumZ xs / Z.of_nat (length xs).

(** Arithmetic mean of rationals. *)
Definition mean (xs : list float64) : float64 :=
  (sumQ xs / Qc_of_Z (Z.of_nat (length xs)))%Qc.

Definition zeroMemory : models.MemoryMetrics :=
  {| models.Total := 0; models.Used := 0; models.Free := 0;
     models.Available := 0; models.MemUsedPercent := 0;
     models.Cached := 0; models.Buffers := 0 |}.

(** The integer fields of a memory sample, each with the field of the
    result it is averaged into. *)
Definition memoryFields
  : list ((MemoryCollector.memorySample → Z) * (models.MemoryMetrics → Z)) :=
  [ (MemoryCollector.total, models.Total);
    (MemoryCollector.used, models.Used);
    (MemoryCollector.free, models.Free);
    (MemoryCollector.available, models.Available);
    (MemoryCollector.cached, models.Cached);
    (MemoryCollector.buffers, models.Buffers) ].

(** Disk I/O, section 4.4. *)







End Spec.

(** ** Invariants of the agent loop *)




(** ** Notions used to state further properties of package dynamic *)

Module Derived.
(** A CPU tick whose reading, if it takes one, lies between two bounds. *)
Definition CPUTickWithin (lo hi : float64) (op : Ops.CPUOp) : Prop :=
  match op with
  | Ops.CPUTick (Ok (p0 :: _)) _ => (lo ≤ p0 ∧ p0 ≤ hi)%Qc
  | _ => True
  end.

(** Memory statistics whose integer fields are all below a bound. *)
Definition vmemBelow (bound : Z) (v : mem.VirtualMemoryStat) : Prop :=
  (0 <= mem.Total v < bound) ∧ (0 <= mem.Used v < bound)
  ∧ (0 <= mem.Free v < bound) ∧ (0 <= mem.Available v < bound)
  ∧ (0 <= mem.Cached v < bound) ∧ (0 <= mem.Buffers v < bound).

Definition MemoryTickBelow (bound : Z) (op : Ops.MemoryOp) : Prop :=
  match op with
  | Ops.MemoryTick (Ok v) _ => vmemBelow bound v
  | _ => True
  end.

(** The usage of a partition that [CollectDiskSpace] counts: its
    filesystem type is not skipped and its usage query succeeds. *)
Definition counted (usage : string → result oneshot.UsageStat)
    (partition : oneshot.PartitionStat) : option oneshot.UsageStat :=
  if oneshot.shouldSkipFilesystem (oneshot.Fstype partition) then None
  else match usage (oneshot.Mountpoint partition) with
       | Ok u => Some u
       | Err _ => None
       end.

(** The IP an address parses to, when [classifyInterface] can use it:
    neither loopback nor unspecified. *)
Definition usableIP (addr : net.Addr) : option net.IP :=
  let ip := match net.ParseCIDR addr with
            | Some ip => Some ip
            | None => net.ParseIP addr
            end in
  match ip with
  | Some ip =>
      if negb (net.IsLoopback ip) && negb (net.IsUnspecified ip)
      then Some ip else None
  | None => None
  end.

(** Every interface of every buffered sample has a label in the cache. *)
Definition allClassified (n : NetworkCollector.t) : Prop :=
  ∀ s name,
    s ∈ NetworkCollector.samples n →
    is_Some (NetworkCollector.interfaces s !! name) →
    is_Some (NetworkCollector.interfaceTypes n !! name).

(** The sum of one counter over all entries of a map. *)
Definition sumMap {V} (counter : V → Z) (m : gmap string V) : Z :=
  Spec.sumZ ((λ kv, counter kv.2) <$> map_to_list m).

(** Every cycle of the loop is accounted for once: as a success in
    [metricsCount], as a failure in [errorCount] (both modulo 2^64), or
    as the one cycle that set [authFailed]. *)
Definition accounted (p : Agent.Proc) : Prop :=
  ∃ successes failures : nat,
    Agent.cycles p =
      (successes + failures
       + if Agent.authFailed (Agent.agent p) then 1 else 0)%nat
    ∧ Agent.metricsCount (Agent.agent p) = Z.of_nat successes mod two64
    ∧ Agent.errorCount (Agent.agent p) = Z.of_nat failures mod two64.
End Derived.
(** ** Concrete inputs used in examples *)

(** A buffer on which the private query alone reports traffic. *)
Definition twoSamples : NetworkCollector.t :=
  let stats (b : Z) :=
    {| NetworkCollector.bytesSent := b; NetworkCollector.bytesRecv := b;
       NetworkCollector.errorsIn := 0; NetworkCollector.errorsOut := 0;
       NetworkCollector.dropsIn := 0; NetworkCollector.dropsOut := 0 |} in
  {| NetworkCollector.samples :=
       [ {| NetworkCollector.interfaces := {[ "eth1" := stats 0 ]};
            NetworkCollector.timestamp := 0 |};
         {| NetworkCollector.interfaces := {[ "eth1" := stats 1000000 ]};
            NetworkCollector.timestamp := 1000000000 |} ];
     NetworkCollector.interfaceTypes := {[ "eth1" := "private" ]} |}.


(** A host with 8 GiB of memory, half of it used. *)
Definition vmem8G : mem.VirtualMemoryStat :=
  {| mem.Total := 8589934592; mem.Used := 4294967296;
     mem.Free := 2147483648; mem.Available := 4294967296;
     mem.UsedPercent := Qc_of_Z 50;
     mem.Cached := 1073741824; mem.Buffers := 1073741824 |}.

(** An interface address in CIDR notation, with the IP it parses to. *)
Definition cidrAddr (cidr : string) (ip : net.IP) : net.Addr :=
  {| net.String := cidr; net.ParseCIDR := Some ip; net.ParseIP := None |}.

(** A host whose only interface, eth0, has the one given address. *)
Definition hostWith (cidr : string) (ip : net.IP) : net.Host :=
  λ name,
    if decide (name = "eth0") then
      Ok {| net.Addrs := Ok [cidrAddr cidr ip] |}
    else Err (ErrOther "route ip+net: no such network interface").

Definition eth0Counters (sent recv : Z) : list gopsutilNet.IOCountersStat :=
  [ {| gopsutilNet.Name := "eth0";
       gopsutilNet.BytesSent := sent; gopsutilNet.BytesRecv := recv;
       gopsutilNet.Errin := 0; gopsutilNet.Errout := 0;
       gopsutilNet.Dropin := 0; gopsutilNet.Dropout := 0 |} ].

(** eth0 first seen with a public address, then re-addressed privately. *)
Definition publicHost : net.Host := hostWith "8.8.8.8/24" [8; 8; 8; 8].
Definition privateHost : net.Host := hostWith "10.0.0.5/8" [10; 0; 0; 5].







Definition netStats (bytes : Z) : NetworkCollector.networkStats :=
  {| NetworkCollector.bytesSent := bytes; NetworkCollector.bytesRecv := bytes;
     NetworkCollector.errorsIn := 0; NetworkCollector.errorsOut := 0;
     NetworkCollector.dropsIn := 0; NetworkCollector.dropsOut := 0 |}.

(** * Properties *)

(** ** The capped buffer *)

Section buffer.
Context {A : Type}.
Implicit Types (buf : list A) (x : A).

(** Appending keeps the newest element at the tail and drops, from the
    head, exactly the elements over capacity. *)
Lemma append_capped_drop buf x :
  append_capped buf x = drop (length buf + 1 - maxSamples)%nat (buf ++ [x]).
Proof.
  unfold append_capped. rewrite length_app. simpl.
  case_decide as Hlen; [done|].
  replace (length buf + 1 - maxSamples)%nat with 0%nat by lia. done.
Qed.

Lemma length_append_capped buf x :
  length (append_capped buf x) = ((length buf + 1) `min` maxSamples)%nat.
Proof.
  rewrite append_capped_drop, length_drop, length_app. simpl. lia.
Qed.

Lemma append_capped_bound buf x :
  (length (append_capped buf x) ≤ maxSamples)%nat.
Proof. rewrite length_append_capped. lia. Qed.

Lemma append_capped_last buf x : last (append_capped buf x) = Some x.
Proof.
  rewrite append_capped_drop, drop_app_le by (unfold maxSamples; lia).
  apply last_snoc.
Qed.
End buffer.

(** What one operation does to the length of each buffer. *)

Lemma CPUStep_length c op :
  length (CPUCollector.samples (Ops.CPUStep c op)) =
    match op with
    | Ops.CPUTick _ _ =>
        if Ops.CPUMeasured op
        then ((length (CPUCollector.samples c) + 1) `min` maxSamples)%nat
        else length (CPUCollector.samples c)
    | Ops.CPUCollect (Ok _) => 0%nat
    | Ops.CPUCollect (Err _) => length (CPUCollector.samples c)
    end.
Proof.
  destruct op as [[[|p ps]|e] now|[la|e]]; simpl; try done.
  apply length_append_capped.
Qed.

Lemma MemoryStep_length m op :
  length (MemoryCollector.samples (Ops.MemoryStep m op)) =
    match op with
    | Ops.MemoryTick _ _ =>
        if Ops.MemoryMeasured op
        then ((length (MemoryCollector.samples m) + 1) `min` maxSamples)%nat
        else length (MemoryCollector.samples m)
    | Ops.MemoryCollect _ => 0%nat
    end.
Proof.
  destruct op as [[v|e] now|vm]; simpl; try done.
  - apply length_append_capped.
  - unfold MemoryCollector.Collect. simpl.
    case_decide; [by destruct vm|done].
Qed.

Lemma DiskIOStep_length d op :
  length (DiskIOCollector.samples (Ops.DiskIOStep d op)) =
    match op with
    | Ops.DiskIOTick _ _ =>
        if Ops.DiskIOMeasured op
        then ((length (DiskIOCollector.samples d) + 1) `min` maxSamples)%nat
        else length (DiskIOCollector.samples d)
    | Ops.DiskIOCollect => 0%nat
    end.
Proof.
  destruct op as [[v|e] now|]; simpl; try done.
  apply length_append_capped.
Qed.

Lemma Network_sample_samples counters host now n :
  NetworkCollector.samples (NetworkCollector.sample (Ok counters) host now n) =
    append_capped (NetworkCollector.samples n)
      {| NetworkCollector.interfaces :=
           (foldl (NetworkCollector.sampleStep host)
                  (∅, NetworkCollector.interfaceTypes n) counters).1;
         NetworkCollector.timestamp := now |}.
Proof.
  unfold NetworkCollector.sample.
  by destruct (foldl _ _ counters) as [ifs tys].
Qed.

Lemma Network_sample_types counters host now n :
  NetworkCollector.interfaceTypes
    (NetworkCollector.sample (Ok counters) host now n) =
    (foldl (NetworkCollector.sampleStep host)
           (∅, NetworkCollector.interfaceTypes n) counters).2.
Proof.
  unfold NetworkCollector.sample.
  by destruct (foldl _ _ counters) as [ifs tys].
Qed.

Lemma NetworkStep_length n op :
  length (NetworkCollector.samples (Ops.NetworkStep n op)) =
    match op with
    | Ops.NetworkTick _ _ _ =>
        if Ops.NetworkMeasured op
        then ((length (NetworkCollector.samples n) + 1) `min` maxSamples)%nat
        else length (NetworkCollector.samples n)
    | Ops.NetworkCollectByType _ => 0%nat
    | Ops.NetworkCollectHealth => length (NetworkCollector.samples n)
    end.
Proof.
  destruct op as [[v|e] host now|ty|];
    unfold Ops.NetworkStep, Ops.NetworkMeasured; try done.
  - rewrite Network_sample_samples. apply length_append_capped.
  - unfold NetworkCollector.CollectHealth. by destruct (last _).
Qed.

(** An invariant of a step function holds after every run. *)
Lemma foldl_invariant {S Op} (step : S → Op → S) (P : S → Prop) :
  (∀ s op, P s → P (step s op)) →
  ∀ ops s, P s → P (foldl step s ops).
Proof.
  intros Hstep ops. induction ops as [|op ops IH]; simpl; auto.
Qed.

(** After ticks only, a buffer holds as many samples as measurements were
    taken, up to the capacity. *)
Lemma ticks_length {S Op} (step : S → Op → S) (len : S → nat)
    (isTick measured : Op → bool) :
  (∀ s op, isTick op = true →
     len (step s op) =
       if measured op then ((len s + 1) `min` maxSamples)%nat else len s) →
  ∀ ops s,
    Forall (λ op, isTick op = true) ops →
    (len s ≤ maxSamples)%nat →
    len (foldl step s ops) =
      ((len s + Ops.measurements measured ops) `min` maxSamples)%nat.
Proof.
  intros Hstep ops. unfold Ops.measurements.
  induction ops as [|op ops IH]; intros s Hticks Hlen; simpl.
  - lia.
  - inversion Hticks as [|? ? Hop Hops]; subst.
    rewrite IH; [|done|rewrite Hstep by done; destruct (measured op); lia].
    rewrite Hstep by done. rewrite filter_cons.
    destruct (measured op) eqn:Hm; case_decide; try done; simpl; lia.
Qed.

Lemma CPUTicks_length ticks :
  length (CPUCollector.samples
            (foldl Ops.CPUStep CPUCollector.New (Ops.CPUTicks ticks))) =
    (Ops.measurements Ops.CPUMeasured (Ops.CPUTicks ticks) `min` maxSamples)%nat.
Proof.
  rewrite (ticks_length Ops.CPUStep (λ c, length (CPUCollector.samples c))
             Ops.CPUIsTick Ops.CPUMeasured).
  - done.
  - intros s [p now|la] Htick; [|done].
    apply (CPUStep_length s (Ops.CPUTick p now)).
  - unfold Ops.CPUTicks. apply Forall_fmap, Forall_true. done.
  - simpl. lia.
Qed.

Lemma MemoryTicks_length ticks :
  length (MemoryCollector.samples
            (foldl Ops.MemoryStep MemoryCollector.New (Ops.MemoryTicks ticks))) =
    (Ops.measurements Ops.MemoryMeasured (Ops.MemoryTicks ticks)
       `min` maxSamples)%nat.
Proof.
  rewrite (ticks_length Ops.MemoryStep
             (λ m, length (MemoryCollector.samples m))
             Ops.MemoryIsTick Ops.MemoryMeasured).
  - done.
  - intros s [v now|v] Htick; [|done].
    apply (MemoryStep_length s (Ops.MemoryTick v now)).
  - unfold Ops.MemoryTicks. apply Forall_fmap, Forall_true. done.
  - simpl. lia.
Qed.

Lemma DiskIOTicks_length ticks :
  length (DiskIOCollector.samples
            (foldl Ops.DiskIOStep DiskIOCollector.New (Ops.DiskIOTicks ticks))) =
    (Ops.measurements Ops.DiskIOMeasured (Ops.DiskIOTicks ticks)
       `min` maxSamples)%nat.
Proof.
  rewrite (ticks_length Ops.DiskIOStep
             (λ d, length (DiskIOCollector.samples d))
             Ops.DiskIOIsTick Ops.DiskIOMeasured).
  - done.
  - intros s [v now|] Htick; [|done].
    apply (DiskIOStep_length s (Ops.DiskIOTick v now)).
  - unfold Ops.DiskIOTicks. apply Forall_fmap, Forall_true. done.
  - simpl. lia.
Qed.

Lemma NetworkTicks_length ticks :
  length (NetworkCollector.samples
            (foldl Ops.NetworkStep NetworkCollector.New
                   (Ops.NetworkTicks ticks))) =
    (Ops.measurements Ops.NetworkMeasured (Ops.NetworkTicks ticks)
       `min` maxSamples)%nat.
Proof.
  rewrite (ticks_length Ops.NetworkStep
             (λ n, length (NetworkCollector.samples n))
             Ops.NetworkIsTick Ops.NetworkMeasured).
  - done.
  - intros s [v host now|ty|] Htick; [|done..].
    apply (NetworkStep_length s (Ops.NetworkTick v host now)).
  - unfold Ops.NetworkTicks. apply Forall_fmap, Forall_true. done.
  - simpl. lia.
Qed.

(** ** C5: the buffers stay within capacity *)

(** C5.  Starting from a new sampler, after any interleaving of sample
    ticks and Collect calls the history buffer of each of the four
    samplers holds at most 600 samples; a tick that takes a measurement
    appends it at the tail and drops from the head the samples over
    capacity, and a tick whose query fails leaves the buffer as it is. *)
Theorem buffer_within_capacity :
  maxSamples = 600%nat
  ∧ (∀ ops, (length (CPUCollector.samples
               (foldl Ops.CPUStep CPUCollector.New ops)) ≤ maxSamples)%nat)
  ∧ (∀ ops, (length (MemoryCollector.samples
               (foldl Ops.MemoryStep MemoryCollector.New ops)) ≤ maxSamples)%nat)
  ∧ (∀ ops, (length (DiskIOCollector.samples
               (foldl Ops.DiskIOStep DiskIOCollector.New ops)) ≤ maxSamples)%nat)
  ∧ (∀ ops, (length (NetworkCollector.samples
               (foldl Ops.NetworkStep NetworkCollector.New ops)) ≤ maxSamples)%nat)
  ∧ (∀ c p ps now,
       CPUCollector.samples (CPUCollector.sample (Ok (p :: ps)) now c) =
         drop (length (CPUCollector.samples c) + 1 - maxSamples)%nat
           (CPUCollector.samples c ++
              [{| CPUCollector.usagePercent := p;
                  CPUCollector.timestamp := now |}]))
  ∧ (∀ m v now, ∃ s,
       MemoryCollector.timestamp s = now ∧
       MemoryCollector.total s = mem.Total v ∧
       MemoryCollector.samples (MemoryCollector.sample (Ok v) now m) =
         drop (length (MemoryCollector.samples m) + 1 - maxSamples)%nat
           (MemoryCollector.samples m ++ [s]))
  ∧ (∀ d counters now,
       DiskIOCollector.samples (DiskIOCollector.sample (Ok counters) now d) =
         drop (length (DiskIOCollector.samples d) + 1 - maxSamples)%nat
           (DiskIOCollector.samples d ++
              [{| DiskIOCollector.devices :=
                    DiskIOCollector.toStats <$> counters;
                  DiskIOCollector.timestamp := now |}]))
  ∧ (∀ n counters host now, ∃ s,
       NetworkCollector.timestamp s = now ∧
       NetworkCollector.samples
         (NetworkCollector.sample (Ok counters) host now n) =
         drop (length (NetworkCollector.samples n) + 1 - maxSamples)%nat
           (NetworkCollector.samples n ++ [s]))
  ∧ (∀ c e now, CPUCollector.sample (Err e) now c = c)
  ∧ (∀ c now, CPUCollector.sample (Ok []) now c = c)
  ∧ (∀ m e now, MemoryCollector.sample (Err e) now m = m)
  ∧ (∀ d e now, DiskIOCollector.sample (Err e) now d = d)
  ∧ (∀ n e host now, NetworkCollector.sample (Err e) host now n = n).
Proof.
  split; [done|].
  split.
  { intros ops. apply (foldl_invariant Ops.CPUStep
      (λ c, (length (CPUCollector.samples c) ≤ maxSamples)%nat));
      [|simpl; lia].
    intros s op Hs. rewrite CPUStep_length.
    destruct op as [p now|[la|e]]; [destruct (Ops.CPUMeasured _)|..]; lia. }
  split.
  { intros ops. apply (foldl_invariant Ops.MemoryStep
      (λ m, (length (MemoryCollector.samples m) ≤ maxSamples)%nat));
      [|simpl; lia].
    intros s op Hs. rewrite MemoryStep_length.
    destruct op as [v now|v]; [destruct (Ops.MemoryMeasured _)|]; lia. }
  split.
  { intros ops. apply (foldl_invariant Ops.DiskIOStep
      (λ d, (length (DiskIOCollector.samples d) ≤ maxSamples)%nat));
      [|simpl; lia].
    intros s op Hs. rewrite DiskIOStep_length.
    destruct op as [v now|]; [destruct (Ops.DiskIOMeasured _)|]; lia. }
  split.
  { intros ops. apply (foldl_invariant Ops.NetworkStep
      (λ n, (length (NetworkCollector.samples n) ≤ maxSamples)%nat));
      [|simpl; lia].
    intros s op Hs. rewrite NetworkStep_length.
    destruct op as [v host now|ty|]; [destruct (Ops.NetworkMeasured _)|..];
      lia. }
  split; [intros; apply append_capped_drop|].
  split.
  { intros m v now. eexists. split; [|split]; [| |apply append_capped_drop];
      done. }
  split; [intros; apply append_capped_drop|].
  split.
  { intros n counters host now. eexists. split; [|
      rewrite Network_sample_samples; apply append_capped_drop]. done. }
  done.
Qed.

(** 601 ticks on a new CPU sampler, the i-th at time i: the buffer holds
    600 samples, the first tick's sample is gone, the oldest is the
    second tick's and the newest the last tick's. *)
Lemma buffer_evicts_oldest :
  let ops := (λ i : nat, Ops.CPUTick (Ok [Qc_of_Z (Z.of_nat i)]) (Z.of_nat i))
               <$> seq 1 601 in
  let buf := CPUCollector.samples (foldl Ops.CPUStep CPUCollector.New ops) in
  length buf = 600%nat
  ∧ CPUCollector.timestamp <$> head buf = Some 2
  ∧ CPUCollector.timestamp <$> last buf = Some 601.
Proof. vm_compute. done. Qed.

(** ** C10: a failed load-average query leaves the CPU buffer alone *)

(** C10.  [CPUCollector.Collect] asks for the load averages before it
    drains: when that query fails, Collect returns the error and the
    sampler, buffer included, is unchanged, so the next Collect still
    finds every sample. *)
Theorem cpu_collect_error_keeps_samples :
  ∀ (c : CPUCollector.t) (e : error) (la : load.AvgStat),
    (CPUCollector.Collect (Err e) c).1 = Err e
    ∧ (CPUCollector.Collect (Err e) c).2 = c
    ∧ CPUCollector.samples (CPUCollector.Collect (Err e) c).2 =
        CPUCollector.samples c
    ∧ CPUCollector.Collect (Ok la) (CPUCollector.Collect (Err e) c).2 =
        CPUCollector.Collect (Ok la) c
    ∧ CPUCollector.samples (CPUCollector.Collect (Ok la) c).2 = [].
Proof. intros c e la. by repeat split. Qed.

(** ** C2: the two network queries share one buffer *)

Lemma collectByType_drains ty n :
  NetworkCollector.samples (NetworkCollector.collectByType ty n).2 = [].
Proof. done. Qed.

Lemma collectByType_empty ty n :
  NetworkCollector.samples n = [] →
  NetworkCollector.collectByType ty n = (Ok NetworkCollector.zeroMetrics, n).
Proof.
  destruct n as [ss tys]. simpl. intros ->.
  unfold NetworkCollector.collectByType. simpl. done.
Qed.

Lemma twoSamples_private_alone :
  (NetworkCollector.CollectPrivate twoSamples).1 =
    Ok {| models.SendMbps := Qc_of_Z 8; models.RecvMbps := Qc_of_Z 8;
          models.TotalSentGB := (Qc_of_Z 1 / Qc_of_Z 1000)%Qc;
          models.TotalRecvGB := (Qc_of_Z 1 / Qc_of_Z 1000)%Qc |}.
Proof.
  unfold NetworkCollector.CollectPrivate, NetworkCollector.collectByType.
  simpl. f_equal.
  unfold NetworkCollector.reduce. simpl.
  unfold NetworkCollector.loopBody. simpl.
  unfold NetworkCollector.pairDeltas. simpl.
  rewrite !map_fold_singleton.
  vm_compute. f_equal; apply Qc_is_canon; reflexivity.
Qed.

(** C2.  [CollectPublic] followed, with no sample tick in between, by
    [CollectPrivate]: the first call empties the buffer both calls read,
    so the second finds fewer than two samples and returns all-zero
    values, whatever the buffer held; on [twoSamples] the private query
    alone would have reported 8 Mbps. *)
Theorem network_second_query_starved :
  (∀ n : NetworkCollector.t,
     NetworkCollector.samples (NetworkCollector.CollectPublic n).2 = []
     ∧ (NetworkCollector.CollectPrivate
          (NetworkCollector.CollectPublic n).2).1 =
         Ok NetworkCollector.zeroMetrics)
  ∧ (∀ (n : NetworkCollector.t) (first second : string),
       (NetworkCollector.collectByType second
          (NetworkCollector.collectByType first n).2).1 =
         Ok NetworkCollector.zeroMetrics)
  ∧ (NetworkCollector.CollectPrivate twoSamples).1 ≠
      Ok NetworkCollector.zeroMetrics
  ∧ (NetworkCollector.CollectPrivate
       (NetworkCollector.CollectPublic twoSamples).2).1 =
      Ok NetworkCollector.zeroMetrics.
Proof.
  assert (Hsecond : ∀ (n : NetworkCollector.t) (first second : string),
            (NetworkCollector.collectByType second
               (NetworkCollector.collectByType first n).2).1 =
              Ok NetworkCollector.zeroMetrics).
  { intros n ty1 ty2.
    by rewrite collectByType_empty by apply collectByType_drains. }
  split; [|split; [|split]].
  - intros n. split; [apply collectByType_drains|apply Hsecond].
  - apply Hsecond.
  - rewrite twoSamples_private_alone. intros Heq. inversion Heq.
  - apply Hsecond.
Qed.

(** ** C1: what a Collect drains, and what the next one returns *)

Lemma CPU_collect_empty la c :
  CPUCollector.samples c = [] →
  CPUCollector.Collect (Ok la) c =
    (Ok {| models.UsagePercent := 0;
           models.LoadAvg1m := load.Load1 la;
           models.LoadAvg5m := load.Load5 la;
           models.LoadAvg15m := load.Load15 la |}, c).
Proof. destruct c as [ss]. simpl. by intros ->. Qed.

Lemma Memory_collect_empty vmem m :
  MemoryCollector.samples m = [] →
  MemoryCollector.Collect vmem m =
    (match vmem with
     | Ok v => Ok (MemoryCollector.instant v)
     | Err e => Err e
     end, m).
Proof.
  destruct m as [ss]. simpl. intros ->.
  unfold MemoryCollector.Collect. simpl. by destruct vmem.
Qed.

Lemma Memory_collect_drains vmem m :
  MemoryCollector.samples (MemoryCollector.Collect vmem m).2 = [].
Proof.
  unfold MemoryCollector.Collect. simpl.
  case_decide; [by destruct vmem|done].
Qed.

Lemma DiskIO_collect_empty d :
  DiskIOCollector.samples d = [] →
  DiskIOCollector.Collect d = (Ok DiskIOCollector.zeroMetrics, d).
Proof. destruct d as [ss]. simpl. by intros ->. Qed.

Lemma CollectHealth_empty n :
  NetworkCollector.samples n = [] →
  NetworkCollector.CollectHealth n = (Ok NetworkCollector.zeroHealth, n).
Proof.
  intros Hn. unfold NetworkCollector.CollectHealth. by rewrite Hn.
Qed.

(** C1, as the code has it.  After a sequence of sample ticks on a new
    sampler, of which N take a measurement, a Collect that reaches its
    drain (for the CPU: one whose load-average query succeeds) drains
    exactly min(N, 600) samples and leaves the buffer empty.  A further
    Collect with no tick in between works on an empty batch: the disk
    I/O and the network samplers return all-zero values and no error; the
    CPU sampler returns usage 0 with the load averages just read, or the
    error of the load-average query; the memory sampler returns the
    values of a fresh instantaneous query, or the error of that query. *)
Theorem collect_drains_then_empty :
  (∀ ticks la la',
     let c := foldl Ops.CPUStep CPUCollector.New (Ops.CPUTicks ticks) in
     let N := Ops.measurements Ops.CPUMeasured (Ops.CPUTicks ticks) in
     let c1 := (CPUCollector.Collect (Ok la) c).2 in
     length (CPUCollector.drain c).1 = (N `min` 600)%nat
     ∧ CPUCollector.samples c1 = []
     ∧ CPUCollector.Collect (Ok la') c1 =
         (Ok {| models.UsagePercent := 0;
                models.LoadAvg1m := load.Load1 la';
                models.LoadAvg5m := load.Load5 la';
                models.LoadAvg15m := load.Load15 la' |}, c1)
     ∧ ∀ e, CPUCollector.Collect (Err e) c1 = (Err e, c1))
  ∧ (∀ ticks vmem vmem',
       let m := foldl Ops.MemoryStep MemoryCollector.New
                  (Ops.MemoryTicks ticks) in
       let N := Ops.measurements Ops.MemoryMeasured (Ops.MemoryTicks ticks) in
       let m1 := (MemoryCollector.Collect vmem m).2 in
       length (MemoryCollector.drain m).1 = (N `min` 600)%nat
       ∧ MemoryCollector.samples m1 = []
       ∧ MemoryCollector.Collect vmem' m1 =
           (match vmem' with
            | Ok v => Ok (MemoryCollector.instant v)
            | Err e => Err e
            end, m1))
  ∧ (∀ ticks,
       let d := foldl Ops.DiskIOStep DiskIOCollector.New
                  (Ops.DiskIOTicks ticks) in
       let N := Ops.measurements Ops.DiskIOMeasured (Ops.DiskIOTicks ticks) in
       let d1 := (DiskIOCollector.Collect d).2 in
       length (DiskIOCollector.drain d).1 = (N `min` 600)%nat
       ∧ DiskIOCollector.samples d1 = []
       ∧ DiskIOCollector.Collect d1 = (Ok DiskIOCollector.zeroMetrics, d1))
  ∧ (∀ ticks ifaceType ifaceType',
       let n := foldl Ops.NetworkStep NetworkCollector.New
                  (Ops.NetworkTicks ticks) in
       let N := Ops.measurements Ops.NetworkMeasured
                  (Ops.NetworkTicks ticks) in
       let n1 := (NetworkCollector.collectByType ifaceType n).2 in
       length (NetworkCollector.drain n).1 = (N `min` 600)%nat
       ∧ NetworkCollector.samples n1 = []
       ∧ NetworkCollector.collectByType ifaceType' n1 =
           (Ok NetworkCollector.zeroMetrics, n1)
       ∧ NetworkCollector.CollectHealth n1 =
           (Ok NetworkCollector.zeroHealth, n1)).
Proof.
  split; [|split; [|split]].
  - intros ticks la la' c N c1. split; [apply CPUTicks_length|].
    split; [done|]. split; [by apply CPU_collect_empty|done].
  - intros ticks vmem vmem' m N m1. split; [apply MemoryTicks_length|].
    split; [apply Memory_collect_drains|].
    apply Memory_collect_empty, Memory_collect_drains.
  - intros ticks d N d1. split; [apply DiskIOTicks_length|].
    split; [done|]. by apply DiskIO_collect_empty.
  - intros ticks ty ty' n N n1. split; [apply NetworkTicks_length|].
    split; [done|]. split.
    + by apply collectByType_empty.
    + by apply CollectHealth_empty.
Qed.

(** The second Collect of the memory sampler answers with the fresh query:
    its values when the query succeeds, its error when it fails. *)
Lemma second_memory_collect_not_zero :
  let m := foldl Ops.MemoryStep MemoryCollector.New
             (Ops.MemoryTicks [(Ok vmem8G, 1)]) in
  let m1 := (MemoryCollector.Collect (Ok vmem8G) m).2 in
  MemoryCollector.samples m1 = []
  ∧ (MemoryCollector.Collect (Ok vmem8G) m1).1 ≠ Ok Spec.zeroMemory
  ∧ (MemoryCollector.Collect (Err (ErrOther "meminfo")) m1).1 =
      Err (ErrOther "meminfo").
Proof.
  simpl. split; [done|]. split; [|done].
  unfold MemoryCollector.Collect. simpl. intros Heq. inversion Heq.
Qed.

(** ** C9: interface classification *)

Lemma classifyAddrs_label addrs :
  NetworkCollector.classifyAddrs addrs = "public"
  ∨ NetworkCollector.classifyAddrs addrs = "private".
Proof.
  induction addrs as [|addr rest IH]; simpl; [by right|].
  destruct (match net.ParseCIDR addr with
            | Some ip => Some ip
            | None => net.ParseIP addr
            end) as [ip|]; [|done].
  destruct (negb (net.IsLoopback ip) && negb (net.IsUnspecified ip)); [|done].
  destruct (NetworkCollector.isPrivateIP ip); auto.
Qed.

Lemma classifyInterface_label host name :
  NetworkCollector.classifyInterface host name = "public"
  ∨ NetworkCollector.classifyInterface host name = "private".
Proof.
  unfold NetworkCollector.classifyInterface.
  destruct (host name) as [[[addrs|e]]|e]; simpl; auto using classifyAddrs_label.
Qed.

Lemma observe_sticky host seen (types : gmap string string) name label :
  types !! name = Some label →
  NetworkCollector.observe host seen types !! name = Some label.
Proof.
  intros Hname. unfold NetworkCollector.observe.
  destruct (types !! seen) eqn:Hseen; [done|].
  rewrite lookup_insert_ne; [done|]. intros ->. congruence.
Qed.

Lemma observe_first host (types : gmap string string) name :
  types !! name = None →
  NetworkCollector.observe host name types !! name =
    Some (NetworkCollector.classifyInterface host name).
Proof.
  intros Hname. unfold NetworkCollector.observe. rewrite Hname.
  apply lookup_insert_eq.
Qed.

Lemma observe_other host seen (types : gmap string string) name :
  seen ≠ name →
  NetworkCollector.observe host seen types !! name = types !! name.
Proof.
  intros Hne. unfold NetworkCollector.observe.
  destruct (types !! seen); [done|]. by rewrite lookup_insert_ne.
Qed.

Lemma sampleStep_sticky host counters acc name label :
  acc.2 !! name = Some label →
  (foldl (NetworkCollector.sampleStep host) acc counters).2 !! name =
    Some label.
Proof.
  revert acc. induction counters as [|c cs IH]; intros acc Hacc; [done|].
  simpl. apply IH. simpl. by apply observe_sticky.
Qed.

Lemma sampleStep_first host counters acc name :
  acc.2 !! name = None →
  name ∈ gopsutilNet.Name <$> counters →
  (foldl (NetworkCollector.sampleStep host) acc counters).2 !! name =
    Some (NetworkCollector.classifyInterface host name).
Proof.
  revert acc. induction counters as [|c cs IH]; intros acc Hacc Hin.
  - by apply elem_of_nil in Hin.
  - simpl. destruct (decide (gopsutilNet.Name c = name)) as [<-|Hne].
    + apply sampleStep_sticky. simpl. by apply observe_first.
    + apply IH.
      * simpl. by rewrite observe_other.
      * rewrite fmap_cons in Hin. apply elem_of_cons in Hin as [?|?];
          [congruence|done].
Qed.

Lemma sampleStep_unseen host counters acc name :
  name ∉ gopsutilNet.Name <$> counters →
  (foldl (NetworkCollector.sampleStep host) acc counters).2 !! name =
    acc.2 !! name.
Proof.
  revert acc. induction counters as [|c cs IH]; intros acc Hin; [done|].
  rewrite fmap_cons in Hin. apply not_elem_of_cons in Hin as [Hne Hin].
  simpl. rewrite IH by done. simpl. by apply observe_other.
Qed.

Lemma NetworkStep_sticky n op name label :
  NetworkCollector.interfaceTypes n !! name = Some label →
  NetworkCollector.interfaceTypes (Ops.NetworkStep n op) !! name = Some label.
Proof.
  intros Hname. destruct op as [[counters|e] host now|ty|];
    unfold Ops.NetworkStep; try done.
  - rewrite Network_sample_types. by apply sampleStep_sticky.
  - unfold NetworkCollector.CollectHealth. by destruct (last _).
Qed.

Lemma NetworkStep_labels n op :
  map_Forall (λ _ label, label = "public" ∨ label = "private")
             (NetworkCollector.interfaceTypes n) →
  map_Forall (λ _ label, label = "public" ∨ label = "private")
             (NetworkCollector.interfaceTypes (Ops.NetworkStep n op)).
Proof.
  intros Hall. destruct op as [[counters|e] host now|ty|];
    unfold Ops.NetworkStep; try done.
  - rewrite Network_sample_types.
    generalize (∅ : gmap string NetworkCollector.networkStats).
    revert Hall. generalize (NetworkCollector.interfaceTypes n).
    induction counters as [|c cs IH]; intros types Hall ifs; [done|].
    simpl. apply IH. unfold NetworkCollector.observe. simpl.
    destruct (types !! gopsutilNet.Name c); [done|].
    apply map_Forall_insert_2; [|done].
    exact (classifyInterface_label host (gopsutilNet.Name c)).
  - unfold NetworkCollector.CollectHealth. by destruct (last _).
Qed.

(** The classification of some addresses. *)
Lemma classifyAddrs_examples :
  NetworkCollector.classifyAddrs [cidrAddr "192.168.1.1/24" [192; 168; 1; 1]]
    = "private"
  ∧ NetworkCollector.classifyAddrs [cidrAddr "172.31.0.1/16" [172; 31; 0; 1]]
    = "private"
  ∧ NetworkCollector.classifyAddrs [cidrAddr "172.32.0.1/16" [172; 32; 0; 1]]
    = "public"
  ∧ NetworkCollector.classifyAddrs [cidrAddr "127.0.0.1/8" [127; 0; 0; 1]]
    = "private"
  ∧ NetworkCollector.classifyAddrs
      [cidrAddr "127.0.0.1/8" [127; 0; 0; 1]; cidrAddr "8.8.8.8/24" [8; 8; 8; 8]]
    = "public"
  ∧ NetworkCollector.classifyAddrs
      [cidrAddr "fd00::1/8" (253 :: replicate 14 0 ++ [1])]
    = "private"
  ∧ NetworkCollector.classifyAddrs
      [cidrAddr "2001:db8::1/32" ([32; 1; 13; 184] ++ replicate 11 0 ++ [1])]
    = "public"
  ∧ NetworkCollector.classifyAddrs [] = "private".
Proof. vm_compute. done. Qed.

(** C9.  The cache maps interface names to "public" or "private".  An
    interface absent from the cache gets its label, computed from the
    addresses it has at that moment, at the tick that first reports it;
    from then on no operation on the sampler changes the label, whatever
    addresses later ticks see; names no tick has reported stay absent. *)
Theorem classification_sticky :
  (∀ ops name label,
     NetworkCollector.interfaceTypes
       (foldl Ops.NetworkStep NetworkCollector.New ops) !! name = Some label →
     label = "public" ∨ label = "private")
  ∧ (∀ n counters host now name,
       NetworkCollector.interfaceTypes n !! name = None →
       name ∈ gopsutilNet.Name <$> counters →
       NetworkCollector.interfaceTypes
         (NetworkCollector.sample (Ok counters) host now n) !! name =
         Some (NetworkCollector.classifyInterface host name))
  ∧ (∀ n counters host now name,
       name ∉ gopsutilNet.Name <$> counters →
       NetworkCollector.interfaceTypes
         (NetworkCollector.sample (Ok counters) host now n) !! name =
         NetworkCollector.interfaceTypes n !! name)
  ∧ (∀ n ops name label,
       NetworkCollector.interfaceTypes n !! name = Some label →
       NetworkCollector.interfaceTypes (foldl Ops.NetworkStep n ops) !! name
         = Some label).
Proof.
  split; [|split; [|split]].
  - intros ops name label Hname.
    apply (foldl_invariant Ops.NetworkStep
             (λ n, map_Forall (λ _ label, label = "public" ∨ label = "private")
                     (NetworkCollector.interfaceTypes n))
             NetworkStep_labels ops NetworkCollector.New) in Hname; [done|].
    apply map_Forall_empty.
  - intros n counters host now name Hnone Hin.
    rewrite Network_sample_types. by apply sampleStep_first.
  - intros n counters host now name Hin.
    rewrite Network_sample_types. by rewrite sampleStep_unseen.
  - intros n ops name label Hname.
    apply (foldl_invariant Ops.NetworkStep
             (λ n, NetworkCollector.interfaceTypes n !! name = Some label));
      [|done].
    intros s op. apply NetworkStep_sticky.
Qed.

(** eth0 is first reported while it has the address 8.8.8.8 and is
    labelled public; ticks that see it with 10.0.0.5, and the Collect
    calls in between, leave the label public although the new address
    alone would classify as private. *)
Lemma classification_sticky_witness :
  let n1 := NetworkCollector.sample (Ok (eth0Counters 10 20)) publicHost 1
              NetworkCollector.New in
  let later := [Ops.NetworkTick (Ok (eth0Counters 30 40)) privateHost 2;
                Ops.NetworkCollectByType "public";
                Ops.NetworkTick (Ok (eth0Counters 50 60)) privateHost 3;
                Ops.NetworkCollectHealth] in
  NetworkCollector.interfaceTypes n1 !! "eth0" = Some "public"
  ∧ NetworkCollector.classifyInterface privateHost "eth0" = "private"
  ∧ NetworkCollector.interfaceTypes (foldl Ops.NetworkStep n1 later) !! "eth0"
      = Some "public".
Proof.
  intros n1 later.
  assert (Hfirst : NetworkCollector.interfaceTypes n1 !! "eth0"
                   = Some "public").
  { unfold n1.
    rewrite (proj1 (proj2 classification_sticky) NetworkCollector.New
               (eth0Counters 10 20) publicHost 1 "eth0").
    - vm_compute. reflexivity.
    - vm_compute. reflexivity.
    - vm_compute. left. }
  split; [exact Hfirst|]. split; [vm_compute; reflexivity|].
  exact (proj2 (proj2 (proj2 classification_sticky)) n1 later "eth0" "public"
           Hfirst).
Defined.

(** ** C7: the dynamic orchestrator never fails *)

Lemma keep_None {A} (r : result A) :
  DynamicCollector.keep r = None ↔ ∃ e, r = Err e.
Proof. destruct r; simpl; split; [done|intros [? [=]]|eauto|done]. Qed.

Lemma keep_Some {A} (r : result A) a :
  DynamicCollector.keep r = Some a ↔ r = Ok a.
Proof. destruct r; simpl; split; congruence. Qed.

Lemma Collect_merge os d :
  DynamicCollector.Collect os d =
    (DynamicCollector.merge (DynamicCollector.run os d).1,
     (DynamicCollector.run os d).2).
Proof.
  unfold DynamicCollector.Collect. by destruct (DynamicCollector.run os d).
Qed.




(** ** C3: the agent state machine *)

Lemma refreshStatic_flags cy a :
  Agent.running (Agent.refreshStatic cy a) = Agent.running a
  ∧ Agent.authFailed (Agent.refreshStatic cy a) = Agent.authFailed a
  ∧ Agent.startTime (Agent.refreshStatic cy a) = Agent.startTime a
  ∧ Agent.errorCount (Agent.refreshStatic cy a) = Agent.errorCount a
  ∧ Agent.metricsCount (Agent.refreshStatic cy a) = Agent.metricsCount a
  ∧ Agent.lastSend (Agent.refreshStatic cy a) = Agent.lastSend a
  ∧ Agent.lastCollection (Agent.refreshStatic cy a) = Agent.lastCollection a
  ∧ Agent.stopChanClosed (Agent.refreshStatic cy a) = Agent.stopChanClosed a.
Proof.
  unfold Agent.refreshStatic.
  destruct (Agent.shouldRefresh cy); [|done].
  destruct (Agent.static cy) as [h|e]; [|done].
  by destruct (_ || _).
Qed.

Lemma refreshStatic_state cy a :
  Agent.state (Agent.refreshStatic cy a) = Agent.state a.
Proof.
  unfold Agent.state.
  destruct (refreshStatic_flags cy a) as (-> & -> & -> & _). done.
Qed.


Lemma Stop_flags a :
  (Agent.authFailed (Agent.Stop a).2 = Agent.authFailed a)
  ∧ (Agent.running (Agent.Stop a).2 = true →
     Agent.stopChanClosed (Agent.Stop a).2 = false →
     (Agent.Stop a).1 = Agent.StopPanic → False).
Proof.
  unfold Agent.Stop. destruct (Agent.running a) eqn:Hr; simpl; [|done].
  destruct (Agent.stopChanClosed a) eqn:Hc; simpl; [|done].
  split; [done|]. intros _. by rewrite Hc.
Qed.
















(** ** 64-bit sums *)

Lemma u64_add_range a b : 0 <= u64_add a b < two64.
Proof. unfold u64_add, two64. apply Z.mod_pos_bound. lia. Qed.






Lemma foldl_u64_add {A} (f : A → Z) (xs : list A) acc :
  foldl (λ sum x, u64_add sum (f x)) acc xs mod two64 =
    (acc + Spec.sumZ (f <$> xs)) mod two64.
Proof.
  revert acc. induction xs as [|x xs IH]; intros acc.
  - simpl. f_equal. unfold Spec.sumZ. simpl. lia.
  - rewrite fmap_cons. simpl. rewrite IH. unfold u64_add.
    rewrite Zplus_mod_idemp_l. f_equal. unfold Spec.sumZ. simpl. lia.
Qed.

Lemma foldl_u64_add_range {A} (f : A → Z) (xs : list A) acc :
  0 <= acc < two64 →
  0 <= foldl (λ sum x, u64_add sum (f x)) acc xs < two64.
Proof.
  revert acc. induction xs as [|x xs IH]; intros acc Hacc; simpl; [done|].
  apply IH, u64_add_range.
Qed.

Lemma sum_u64_mod field batch :
  MemoryCollector.sum_u64 field batch =
    Spec.sumZ (field <$> batch) mod two64.
Proof.
  unfold MemoryCollector.sum_u64.
  rewrite <- (Z.mod_small (foldl _ 0 batch) two64)
    by (apply foldl_u64_add_range; unfold two64; lia).
  by rewrite foldl_u64_add.
Qed.

(** ** Sums of rationals *)

Lemma foldl_Qcplus {A} (f : A → float64) (xs : list A) (acc : float64) :
  foldl (λ sum x, (sum + f x)%Qc) acc xs = (acc + Spec.sumQ (f <$> xs))%Qc.
Proof.
  revert acc. induction xs as [|x xs IH]; intros acc.
  - simpl. unfold Spec.sumQ. simpl. by rewrite Qcplus_0_r.
  - rewrite fmap_cons. simpl. rewrite IH. unfold Spec.sumQ. simpl.
    by rewrite Qcplus_assoc.
Qed.

(** ** C6: the memory reducer *)

Lemma Memory_collect_nonempty vmem m :
  MemoryCollector.samples m ≠ [] →
  let batch := MemoryCollector.samples m in
  let count := Z.of_nat (length batch) in
  (MemoryCollector.Collect vmem m).1 =
    Ok {| models.Total := MemoryCollector.sum_u64 MemoryCollector.total batch / count;
          models.Used := MemoryCollector.sum_u64 MemoryCollector.used batch / count;
          models.Free := MemoryCollector.sum_u64 MemoryCollector.free batch / count;
          models.Available :=
            MemoryCollector.sum_u64 MemoryCollector.available batch / count;
          models.MemUsedPercent :=
            (MemoryCollector.sum_f64 MemoryCollector.usedPercent batch
             / Qc_of_Z count)%Qc;
          models.Cached := MemoryCollector.sum_u64 MemoryCollector.cached batch / count;
          models.Buffers :=
            MemoryCollector.sum_u64 MemoryCollector.buffers batch / count |}.
Proof.
  intros Hne. unfold MemoryCollector.Collect. simpl.
  case_decide as Hlen; [|done].
  by apply length_zero_iff_nil in Hlen.
Qed.




(** ** Elapsed time *)

Lemma Qc_of_Z_pos z : 0 < z → (0 < Qc_of_Z z)%Qc.
Proof.
  intros Hz. rewrite <- Z2Qc_inj_0. exact (proj1 (Z2Qc_inj_lt 0 z) Hz).
Qed.




(** ** The disk I/O reducer *)















(** ** C4: the disk I/O rates *)



(** ** C8: counter resets *)





(** * Further properties *)

(** ** The dynamic orchestrator on its samplers *)

Lemma run_eq os d :
  DynamicCollector.run os d =
    ({| DynamicCollector.bCPU :=
          (CPUCollector.Collect (DynamicCollector.loadAvg os)
             (DynamicCollector.cpu d)).1;
        DynamicCollector.bMemory :=
          (MemoryCollector.Collect (DynamicCollector.vmem os)
             (DynamicCollector.memory d)).1;
        DynamicCollector.bSwap :=
          oneshot.CollectSwap (DynamicCollector.swap os);
        DynamicCollector.bDiskSpace :=
          oneshot.CollectDiskSpace (DynamicCollector.partitions os)
            (DynamicCollector.usage os);
        DynamicCollector.bDiskIO :=
          Ok (DiskIOCollector.reduce
                (DiskIOCollector.samples (DynamicCollector.diskIO d)));
        DynamicCollector.bNetworkPublic :=
          Ok (NetworkCollector.reduce
                (NetworkCollector.interfaceTypes (DynamicCollector.network d))
                "public"
                (NetworkCollector.samples (DynamicCollector.network d)));
        DynamicCollector.bNetworkPrivate := Ok NetworkCollector.zeroMetrics;
        DynamicCollector.bNetworkHealth := Ok NetworkCollector.zeroHealth;
        DynamicCollector.bSystem :=
          oneshot.CollectSystemDynamic (DynamicCollector.hostInfo os)
            (DynamicCollector.processes os) |},
     {| DynamicCollector.cpu :=
          (CPUCollector.Collect (DynamicCollector.loadAvg os)
             (DynamicCollector.cpu d)).2;
        DynamicCollector.memory := {| MemoryCollector.samples := [] |};
        DynamicCollector.diskIO := {| DiskIOCollector.samples := [] |};
        DynamicCollector.network :=
          {| NetworkCollector.samples := [];
             NetworkCollector.interfaceTypes :=
               NetworkCollector.interfaceTypes (DynamicCollector.network d) |}
     |}).
Proof.
  unfold DynamicCollector.run.
  destruct (CPUCollector.Collect _ _) as [rcpu c'].
  destruct (MemoryCollector.Collect _ _) as [rmem m'] eqn:Hmem.
  assert (m' = {| MemoryCollector.samples := [] |}) as ->.
  { pose proof (Memory_collect_drains (DynamicCollector.vmem os)
                  (DynamicCollector.memory d)) as Hd.
    rewrite Hmem in Hd. simpl in Hd. destruct m' as [ss]. simpl in Hd.
    by rewrite Hd. }
  unfold DiskIOCollector.Collect, NetworkCollector.CollectPublic,
    NetworkCollector.CollectPrivate, NetworkCollector.collectByType,
    NetworkCollector.CollectHealth.
  simpl. done.
Qed.

(** X1.  Which fields of the snapshot are present depends on the
    operating system's answers as follows: CPU is absent exactly when the
    load-average query fails; Memory exactly when the memory buffer is
    empty and the fallback query fails; Swap, DiskSpace and System
    exactly when the swap query, the partition listing and the
    host-information query fail (a failing process listing does not
    remove System: its ProcessCount is then 0); DiskIO and the three
    network fields are always present. *)
Theorem orchestrator_snapshot_fields :
  ∀ (os : DynamicCollector.Probes) (d : DynamicCollector.t),
    let snapshot := (DynamicCollector.Collect os d).1.1 in
    (models.CPU snapshot = None ↔ ∃ e, DynamicCollector.loadAvg os = Err e)
    ∧ (models.Memory snapshot = None ↔
         MemoryCollector.samples (DynamicCollector.memory d) = []
         ∧ ∃ e, DynamicCollector.vmem os = Err e)
    ∧ (models.Swap snapshot = None ↔ ∃ e, DynamicCollector.swap os = Err e)
    ∧ (models.DiskSpace snapshot = None ↔
         ∃ e, DynamicCollector.partitions os = Err e)
    ∧ (models.System snapshot = None ↔
         ∃ e, DynamicCollector.hostInfo os = Err e)
    ∧ (∀ info e,
         DynamicCollector.hostInfo os = Ok info →
         DynamicCollector.processes os = Err e →
         ∃ sys, models.System snapshot = Some sys
                ∧ models.ProcessCount sys = 0)
    ∧ is_Some (models.DiskIO snapshot)
    ∧ is_Some (models.NetworkPublic snapshot)
    ∧ is_Some (models.NetworkPrivate snapshot)
    ∧ is_Some (models.NetworkHealth snapshot).
Proof.
  intros os d. cbv zeta. rewrite Collect_merge, run_eq.
  cbn [fst snd DynamicCollector.merge models.CPU models.Memory models.Swap
       models.DiskSpace models.System models.DiskIO models.NetworkPublic
       models.NetworkPrivate models.NetworkHealth
       DynamicCollector.bCPU DynamicCollector.bMemory DynamicCollector.bSwap
       DynamicCollector.bDiskSpace DynamicCollector.bSystem
       DynamicCollector.bDiskIO DynamicCollector.bNetworkPublic
       DynamicCollector.bNetworkPrivate DynamicCollector.bNetworkHealth].
  rewrite !keep_None.
  split; [|split; [|split; [|split; [|split; [|split]]]]].
  - destruct (DynamicCollector.loadAvg os) as [la|e]; simpl.
    + split; [intros [e [=]]|intros [e [=]]].
    + split; eauto.
  - destruct (DynamicCollector.memory d) as [[|s ss]].
    + rewrite Memory_collect_empty by done. simpl.
      destruct (DynamicCollector.vmem os) as [v|e].
      * split; [intros [e [=]]|intros [_ [e [=]]]].
      * split; eauto.
    + rewrite Memory_collect_nonempty by done.
      split; [intros [e [=]]|intros [[=] _]].
  - destruct (DynamicCollector.swap os) as [v|e]; simpl.
    + split; intros [e [=]].
    + split; eauto.
  - unfold oneshot.CollectDiskSpace.
    destruct (DynamicCollector.partitions os) as [ps|e].
    + destruct (foldl _ _ ps) as [[t u] f].
      split; intros [e [=]].
    + split; eauto.
  - destruct (DynamicCollector.hostInfo os) as [v|e]; simpl.
    + split; intros [e [=]].
    + split; eauto.
  - intros info e -> ->. simpl. eauto.
  - simpl. eauto.
Qed.

(** X2.  Inside one Collect the private query and the health query run
    after the public query has emptied the buffer: whatever the network
    buffer holds, the snapshot's private metrics and health counters are
    all zero, and only the public metrics are computed from the buffered
    samples.  Afterwards the memory, disk I/O and network buffers are
    empty, and the CPU buffer is empty unless the load-average query
    failed. *)
Theorem orchestrator_network_starved :
  ∀ (os : DynamicCollector.Probes) (d : DynamicCollector.t),
    let snapshot := (DynamicCollector.Collect os d).1.1 in
    let d' := (DynamicCollector.Collect os d).2 in
    models.NetworkPrivate snapshot = Some NetworkCollector.zeroMetrics
    ∧ models.NetworkHealth snapshot = Some NetworkCollector.zeroHealth
    ∧ models.NetworkPublic snapshot =
        Some (NetworkCollector.reduce
                (NetworkCollector.interfaceTypes (DynamicCollector.network d))
                "public"
                (NetworkCollector.samples (DynamicCollector.network d)))
    ∧ models.DiskIO snapshot =
        Some (DiskIOCollector.reduce
                (DiskIOCollector.samples (DynamicCollector.diskIO d)))
    ∧ MemoryCollector.samples (DynamicCollector.memory d') = []
    ∧ DiskIOCollector.samples (DynamicCollector.diskIO d') = []
    ∧ NetworkCollector.samples (DynamicCollector.network d') = []
    ∧ NetworkCollector.interfaceTypes (DynamicCollector.network d') =
        NetworkCollector.interfaceTypes (DynamicCollector.network d)
    ∧ CPUCollector.samples (DynamicCollector.cpu d') =
        match DynamicCollector.loadAvg os with
        | Ok _ => []
        | Err _ => CPUCollector.samples (DynamicCollector.cpu d)
        end.
Proof.
  intros os d. cbv zeta. rewrite Collect_merge, run_eq. simpl.
  repeat split. by destruct (DynamicCollector.loadAvg os).
Qed.

(** ** The CPU sampler: the reported usage is a mean of readings *)

Lemma length_Z_succ {A} (x : A) (xs : list A) :
  Qc_of_Z (Z.of_nat (length (x :: xs))) =
    (1 + Qc_of_Z (Z.of_nat (length xs)))%Qc.
Proof.
  cbn [length]. rewrite Nat2Z.inj_succ, <- Z.add_1_l, Z2Qc_inj_add.
  by rewrite Z2Qc_inj_1.
Qed.

Lemma sumQ_bounds (lo hi : float64) xs :
  Forall (λ x, (lo ≤ x ∧ x ≤ hi)%Qc) xs →
  (lo * Qc_of_Z (Z.of_nat (length xs)) ≤ Spec.sumQ xs
   ∧ Spec.sumQ xs ≤ hi * Qc_of_Z (Z.of_nat (length xs)))%Qc.
Proof.
  induction 1 as [|x xs [Hlo Hhi] _ [IHlo IHhi]].
  - cbn [length]. change (Z.of_nat 0) with 0. unfold Spec.sumQ. cbn [foldr].
    rewrite Z2Qc_inj_0, !Qcmult_0_r. split; apply Qcle_refl.
  - rewrite length_Z_succ. unfold Spec.sumQ. cbn [foldr].
    fold (Spec.sumQ xs).
    rewrite !Qcmult_plus_distr_r, !Qcmult_1_r.
    split; by apply Qcplus_le_compat.
Qed.

Lemma length_Qc_pos {A} (xs : list A) :
  xs ≠ [] → (0 < Qc_of_Z (Z.of_nat (length xs)))%Qc.
Proof.
  intros Hne. apply Qc_of_Z_pos. destruct xs; [done|]. simpl. lia.
Qed.

Lemma mean_bounds (lo hi : float64) xs :
  xs ≠ [] →
  Forall (λ x, (lo ≤ x ∧ x ≤ hi)%Qc) xs →
  (lo ≤ Spec.mean xs ∧ Spec.mean xs ≤ hi)%Qc.
Proof.
  intros Hne Hall. destruct (sumQ_bounds lo hi xs Hall) as [Hlo Hhi].
  pose proof (length_Qc_pos xs Hne) as Hpos.
  assert (Qc_of_Z (Z.of_nat (length xs)) ≠ 0%Qc) as Hnz.
  { intros Heq. rewrite Heq in Hpos. by apply Qclt_not_le in Hpos. }
  unfold Spec.mean.
  split; apply (Qcmult_le_mono_pos_r _ _ _ Hpos);
    rewrite test_field by done; done.
Qed.

Lemma avgUsage_mean batch :
  batch ≠ [] →
  CPUCollector.avgUsage batch =
    Spec.mean (CPUCollector.usagePercent <$> batch).
Proof.
  intros Hne. unfold CPUCollector.avgUsage, Spec.mean.
  rewrite decide_True by (destruct batch; [done|simpl; lia]).
  rewrite (foldl_Qcplus CPUCollector.usagePercent), Qcplus_0_l.
  by rewrite length_fmap.
Qed.

Lemma append_capped_Forall {A} (P : A → Prop) buf x :
  Forall P buf → P x → Forall P (append_capped buf x).
Proof.
  intros Hbuf Hx. rewrite append_capped_drop.
  apply Forall_drop, Forall_app. split; [done|by constructor].
Qed.

Lemma CPUStep_within lo hi c op :
  Derived.CPUTickWithin lo hi op →
  Forall (λ s, (lo ≤ CPUCollector.usagePercent s
                ∧ CPUCollector.usagePercent s ≤ hi)%Qc)
         (CPUCollector.samples c) →
  Forall (λ s, (lo ≤ CPUCollector.usagePercent s
                ∧ CPUCollector.usagePercent s ≤ hi)%Qc)
         (CPUCollector.samples (Ops.CPUStep c op)).
Proof.
  intros Hop Hc. destruct op as [[[|p0 ps]|e] now|[la|e]]; simpl; try done.
  by apply append_capped_Forall.
Qed.

Lemma CPUSteps_within lo hi ops :
  ∀ c,
    Forall (Derived.CPUTickWithin lo hi) ops →
    Forall (λ s, (lo ≤ CPUCollector.usagePercent s
                  ∧ CPUCollector.usagePercent s ≤ hi)%Qc)
           (CPUCollector.samples c) →
    Forall (λ s, (lo ≤ CPUCollector.usagePercent s
                  ∧ CPUCollector.usagePercent s ≤ hi)%Qc)
           (CPUCollector.samples (foldl Ops.CPUStep c ops)).
Proof.
  induction ops as [|op ops IH]; intros c Hops Hc; [done|].
  inversion_clear Hops. simpl. apply IH; [done|]. by apply CPUStep_within.
Qed.

(** X3.  After any interleaving of sample ticks and Collect calls whose
    readings all lie between [lo] and [hi] (0 and 100 for percentages), a
    successful Collect passes the three load averages through unchanged
    and reports as usage the arithmetic mean of the buffered readings,
    which again lies between [lo] and [hi]; with an empty buffer the
    usage is 0. *)
Theorem cpu_usage_mean_within_bounds :
  ∀ (lo hi : float64) (ops : list Ops.CPUOp) (la : load.AvgStat),
    Forall (Derived.CPUTickWithin lo hi) ops →
    let c := foldl Ops.CPUStep CPUCollector.New ops in
    ∃ r, (CPUCollector.Collect (Ok la) c).1 = Ok r
      ∧ models.LoadAvg1m r = load.Load1 la
      ∧ models.LoadAvg5m r = load.Load5 la
      ∧ models.LoadAvg15m r = load.Load15 la
      ∧ (CPUCollector.samples c = [] → models.UsagePercent r = 0%Qc)
      ∧ (CPUCollector.samples c ≠ [] →
         models.UsagePercent r =
           Spec.mean (CPUCollector.usagePercent <$> CPUCollector.samples c)
         ∧ (lo ≤ models.UsagePercent r ∧ models.UsagePercent r ≤ hi)%Qc).
Proof.
  intros lo hi ops la Hops c.
  assert (Forall (λ s, (lo ≤ CPUCollector.usagePercent s
                        ∧ CPUCollector.usagePercent s ≤ hi)%Qc)
                 (CPUCollector.samples c)) as Hall.
  { apply CPUSteps_within; [done|constructor]. }
  eexists. split; [reflexivity|]. simpl.
  split; [done|]. split; [done|]. split; [done|]. split.
  - intros ->. done.
  - intros Hne. rewrite avgUsage_mean by done. split; [done|].
    apply mean_bounds.
    + by destruct (CPUCollector.samples c).
    + by apply Forall_fmap.
Qed.

(** Two readings of 10 % and 30 %, with a failed reading and a failed
    Collect in between, give a usage of 20 %. *)
Lemma cpu_usage_mean_within_bounds_witness :
  let ops := [Ops.CPUTick (Ok [Qc_of_Z 10; Qc_of_Z 90]) 1;
              Ops.CPUTick (Err (ErrOther "stat")) 2;
              Ops.CPUCollect (Err (ErrOther "loadavg"));
              Ops.CPUTick (Ok [Qc_of_Z 30]) 3] in
  let c := foldl Ops.CPUStep CPUCollector.New ops in
  ∃ r, (CPUCollector.Collect
          (Ok {| load.Load1 := Qc_of_Z 1; load.Load5 := Qc_of_Z 2;
                 load.Load15 := Qc_of_Z 3 |}) c).1
       = Ok r
    ∧ models.UsagePercent r = Qc_of_Z 20
    ∧ (Qc_of_Z 0 ≤ models.UsagePercent r
       ∧ models.UsagePercent r ≤ Qc_of_Z 100)%Qc.
Proof.
  intros ops c.
  destruct (cpu_usage_mean_within_bounds (Qc_of_Z 0) (Qc_of_Z 100) ops
              {| load.Load1 := Qc_of_Z 1; load.Load5 := Qc_of_Z 2;
                 load.Load15 := Qc_of_Z 3 |})
    as (r & Hr & _ & _ & _ & _ & Hmean).
  { repeat constructor; vm_compute; discriminate. }
  exists r. split; [exact Hr|].
  destruct Hmean as [Heq Hbounds]; [vm_compute; discriminate|].
  split; [|exact Hbounds].
  rewrite Heq. apply Qc_is_canon. vm_compute. reflexivity.
Defined.

(** ** The memory sampler: no overflow below 2^54 bytes *)

Lemma sumZ_bounds bound xs :
  Forall (λ x, 0 <= x < bound) xs →
  0 <= Spec.sumZ xs <= (bound - 1) * Z.of_nat (length xs).
Proof.
  induction 1 as [|x xs Hx _ IH]; [simpl; lia|].
  unfold Spec.sumZ in *. cbn [foldr length]. nia.
Qed.

Lemma meanTrunc_exact bound field batch :
  bound * Z.of_nat maxSamples <= two64 →
  (length batch ≤ maxSamples)%nat →
  Forall (λ s, 0 <= field s < bound) batch →
  MemoryCollector.sum_u64 field batch / Z.of_nat (length batch) =
    Spec.meanTrunc (field <$> batch).
Proof.
  intros Hbound Hlen Hall. rewrite sum_u64_mod. unfold Spec.meanTrunc.
  rewrite length_fmap. f_equal. apply Z.mod_small.
  pose proof (sumZ_bounds bound (field <$> batch)) as Hsum.
  rewrite length_fmap in Hsum.
  destruct batch as [|s batch]; [done|].
  assert (0 < bound) by (inversion_clear Hall; lia).
  specialize (Hsum ltac:(by apply Forall_fmap)).
  split; [lia|]. cbn [length] in *. nia.
Qed.

Lemma meanTrunc_bounds bound xs :
  xs ≠ [] →
  Forall (λ x, 0 <= x < bound) xs →
  0 <= Spec.meanTrunc xs < bound.
Proof.
  intros Hne Hall. pose proof (sumZ_bounds bound xs Hall) as Hsum.
  unfold Spec.meanTrunc.
  assert (0 < Z.of_nat (length xs)) by (destruct xs; [done|simpl; lia]).
  split; [apply Z.div_pos; lia|].
  apply Z.div_lt_upper_bound; [lia|]. nia.
Qed.

Lemma MemoryStep_below bound m op :
  Derived.MemoryTickBelow bound op →
  Forall (λ s, Forall (λ fields : (MemoryCollector.memorySample → Z)
                                  * (models.MemoryMetrics → Z),
                         0 <= fields.1 s < bound) Spec.memoryFields)
         (MemoryCollector.samples m) →
  Forall (λ s, Forall (λ fields : (MemoryCollector.memorySample → Z)
                                  * (models.MemoryMetrics → Z),
                         0 <= fields.1 s < bound) Spec.memoryFields)
         (MemoryCollector.samples (Ops.MemoryStep m op)).
Proof.
  intros Hop Hm. destruct op as [[v|e] now|vmem]; simpl; try done.
  - apply append_capped_Forall; [done|].
    destruct Hop as (? & ? & ? & ? & ? & ?).
    repeat constructor; simpl; lia.
  - rewrite Memory_collect_drains. constructor.
Qed.

Lemma MemorySteps_below bound ops :
  ∀ m,
    Forall (Derived.MemoryTickBelow bound) ops →
    Forall (λ s, Forall (λ fields : (MemoryCollector.memorySample → Z)
                                    * (models.MemoryMetrics → Z),
                           0 <= fields.1 s < bound) Spec.memoryFields)
           (MemoryCollector.samples m) →
    Forall (λ s, Forall (λ fields : (MemoryCollector.memorySample → Z)
                                    * (models.MemoryMetrics → Z),
                           0 <= fields.1 s < bound) Spec.memoryFields)
           (MemoryCollector.samples (foldl Ops.MemoryStep m ops)).
Proof.
  induction ops as [|op ops IH]; intros m Hops Hm; [done|].
  inversion_clear Hops. simpl. apply IH; [done|]. by apply MemoryStep_below.
Qed.

Lemma MemorySteps_length ops :
  ∀ m,
    (length (MemoryCollector.samples m) ≤ maxSamples)%nat →
    (length (MemoryCollector.samples (foldl Ops.MemoryStep m ops))
       ≤ maxSamples)%nat.
Proof.
  apply (foldl_invariant Ops.MemoryStep
           (λ m, (length (MemoryCollector.samples m) ≤ maxSamples)%nat)).
  intros m op Hm. rewrite MemoryStep_length.
  destruct op as [vmem now|vmem]; [|lia].
  destruct (Ops.MemoryMeasured _); lia.
Qed.

(** X4.  The 64-bit sums of the memory reducer cannot wrap when every
    reading is below a bound with 600 * bound <= 2^64 (2^54 bytes, 16 PiB,
    is such a bound): after any interleaving of sample ticks and Collect
    calls, a Collect on a non-empty buffer reports for each integer field
    exactly the truncated mean of the buffered readings, and that mean is
    again below the bound. *)
Theorem memory_mean_exact_without_overflow :
  ∀ (bound : Z) (ops : list Ops.MemoryOp)
    (vmem : result mem.VirtualMemoryStat),
    bound * Z.of_nat maxSamples <= two64 →
    Forall (Derived.MemoryTickBelow bound) ops →
    let m := foldl Ops.MemoryStep MemoryCollector.New ops in
    MemoryCollector.samples m ≠ [] →
    ∃ r, (MemoryCollector.Collect vmem m).1 = Ok r
      ∧ ∀ fields, fields ∈ Spec.memoryFields →
          fields.2 r = Spec.meanTrunc (fields.1 <$> MemoryCollector.samples m)
          ∧ 0 <= fields.2 r < bound.
Proof.
  intros bound ops vmem Hbound Hops m Hne.
  assert (Forall (λ s, Forall (λ fields : (MemoryCollector.memorySample → Z)
                                         * (models.MemoryMetrics → Z),
                                0 <= fields.1 s < bound) Spec.memoryFields)
                 (MemoryCollector.samples m)) as Hall.
  { apply MemorySteps_below; [done|constructor]. }
  assert (length (MemoryCollector.samples m) ≤ maxSamples)%nat as Hlen.
  { apply MemorySteps_length. simpl. lia. }
  pose proof (Memory_collect_nonempty vmem m Hne) as Hr. cbv zeta in Hr.
  match type of Hr with _ = Ok ?x => set (r := x) in * end.
  exists r. split; [exact Hr|].
  intros fields Hin.
  assert (Forall (λ s, 0 <= fields.1 s < bound) (MemoryCollector.samples m))
    as Hfield.
  { eapply Forall_impl; [exact Hall|]. intros s Hs.
    by apply (proj1 (Forall_forall _ _) Hs). }
  assert (fields.2 r = Spec.meanTrunc (fields.1 <$> MemoryCollector.samples m))
    as Heq.
  { unfold Spec.memoryFields in Hin. clear Hr.
    repeat (apply elem_of_cons in Hin as [->|Hin];
            [subst r; simpl in *; by apply (meanTrunc_exact bound)|]).
    by apply elem_of_nil in Hin. }
  split; [exact Heq|].
  rewrite Heq. apply meanTrunc_bounds; [|by apply Forall_fmap].
  by destruct (MemoryCollector.samples m).
Qed.

(** Readings of 8 GiB and 4 GiB of used memory on a 8 GiB machine
    average to 6 GiB. *)
Lemma memory_mean_exact_without_overflow_witness :
  let half := {| mem.Total := 8589934592; mem.Used := 4294967296;
                 mem.Free := 4294967296; mem.Available := 4294967296;
                 mem.UsedPercent := Qc_of_Z 50; mem.Cached := 0;
                 mem.Buffers := 0 |} in
  let full := {| mem.Total := 8589934592; mem.Used := 8589934592;
                 mem.Free := 0; mem.Available := 0;
                 mem.UsedPercent := Qc_of_Z 100; mem.Cached := 0;
                 mem.Buffers := 0 |} in
  let m := foldl Ops.MemoryStep MemoryCollector.New
             [Ops.MemoryTick (Ok full) 1; Ops.MemoryCollect (Ok full);
              Ops.MemoryTick (Ok full) 2; Ops.MemoryTick (Ok half) 3] in
  ∃ r, (MemoryCollector.Collect (Err (ErrOther "unused")) m).1 = Ok r
    ∧ models.Used r = 6442450944.
Proof.
  intros half full m.
  destruct (memory_mean_exact_without_overflow (2 ^ 54)
              [Ops.MemoryTick (Ok full) 1; Ops.MemoryCollect (Ok full);
               Ops.MemoryTick (Ok full) 2; Ops.MemoryTick (Ok half) 3]
              (Err (ErrOther "unused")))
    as (r & Hr & Hfields).
  - vm_compute. discriminate.
  - repeat constructor; vm_compute; done.
  - vm_compute. discriminate.
  - exists r. split; [exact Hr|].
    destruct (Hfields (MemoryCollector.used, models.Used)) as [Heq _].
    + vm_compute. right. left.
    + simpl in Heq. rewrite Heq. vm_compute. reflexivity.
Defined.

(** ** Disk space: what is summed *)

Lemma foldl_addPartition usage ps :
  ∀ acc,
    foldl (oneshot.addPartition usage) acc ps =
      (foldl (λ sum u, u64_add sum (oneshot.UsageTotal u)) acc.1.1
             (omap (Derived.counted usage) ps),
       foldl (λ sum u, u64_add sum (oneshot.UsageUsed u)) acc.1.2
             (omap (Derived.counted usage) ps),
       foldl (λ sum u, u64_add sum (oneshot.UsageFree u)) acc.2
             (omap (Derived.counted usage) ps)).
Proof.
  induction ps as [|p ps IH]; intros [[t u] f]; [done|].
  cbn [foldl omap list_omap]. rewrite IH.
  unfold oneshot.addPartition, Derived.counted.
  destruct (oneshot.shouldSkipFilesystem _); [done|].
  by destruct (usage _).
Qed.

Lemma foldl_u64_add_0 {A} (f : A → Z) (xs : list A) :
  foldl (λ sum x, u64_add sum (f x)) 0 xs = Spec.sumZ (f <$> xs) mod two64.
Proof.
  rewrite <- (Z.mod_small (foldl _ 0 xs) two64)
    by (apply foldl_u64_add_range; unfold two64; lia).
  by rewrite foldl_u64_add.
Qed.

(** X5.  CollectDiskSpace fails only when the partition listing fails.
    Otherwise each of its three byte counts is the sum, modulo 2^64, over
    exactly the partitions whose filesystem type is not on the skip list
    and whose usage query succeeds; a partition whose usage query fails
    is left out without failing the call.  The percentage is
    used / total * 100, and 0 when the total is 0. *)
Theorem disk_space_sums_counted_partitions :
  (∀ e usage, oneshot.CollectDiskSpace (Err e) usage = Err e)
  ∧ (∀ ps usage,
       let us := omap (Derived.counted usage) ps in
       ∃ r, oneshot.CollectDiskSpace (Ok ps) usage = Ok r
         ∧ models.DiskTotal r =
             Spec.sumZ (oneshot.UsageTotal <$> us) mod two64
         ∧ models.DiskUsed r =
             Spec.sumZ (oneshot.UsageUsed <$> us) mod two64
         ∧ models.DiskFree r =
             Spec.sumZ (oneshot.UsageFree <$> us) mod two64
         ∧ models.DiskUsedPercent r =
             if decide (models.DiskTotal r = 0) then 0%Qc
             else (Qc_of_Z (models.DiskUsed r) / Qc_of_Z (models.DiskTotal r)
                   * Qc_of_Z 100)%Qc)
  ∧ (∀ p usage,
       Derived.counted usage p = None ↔
       oneshot.Fstype p ∈ oneshot.skipTypes
       ∨ ∃ e, usage (oneshot.Mountpoint p) = Err e).
Proof.
  split; [done|]. split.
  - intros ps usage us. unfold oneshot.CollectDiskSpace.
    rewrite foldl_addPartition. cbn [fst snd]. fold us.
    rewrite !foldl_u64_add_0. eexists. split; [reflexivity|].
    cbn [models.DiskTotal models.DiskUsed models.DiskFree
         models.DiskUsedPercent].
    repeat (split; [reflexivity|]).
    pose proof (Z.mod_pos_bound (Spec.sumZ (oneshot.UsageTotal <$> us)) two64
                  ltac:(unfold two64; lia)) as Hrange.
    destruct (decide (_ = 0)) as [Heq|Hne].
    + rewrite decide_False by lia. done.
    + rewrite decide_True by lia. done.
  - intros p usage. unfold Derived.counted, oneshot.shouldSkipFilesystem.
    case_bool_decide as Hskip.
    + split; [by left|done].
    + destruct (usage _) as [u|e].
      * split; [done|]. intros [?|[e [=]]]; done.
      * split; [|done]. intros _. right. eauto.
Qed.

(** ** Interface classification *)

(** X6.  An interface is labelled by the first of its addresses that
    parses (as CIDR, else as a plain IP) to an address that is neither
    loopback nor unspecified: "private" when that address lies in one of
    the private blocks, "public" otherwise; addresses after it are not
    looked at.  Without such an address, and when the interface or its
    addresses cannot be read, the label is "private". *)
Theorem interface_label_from_first_usable_address :
  (∀ addrs,
     NetworkCollector.classifyAddrs addrs =
       match head (omap Derived.usableIP addrs) with
       | Some ip =>
           if NetworkCollector.isPrivateIP ip then "private" else "public"
       | None => "private"
       end)
  ∧ (∀ skipped addr ip rest,
       omap Derived.usableIP skipped = [] →
       Derived.usableIP addr = Some ip →
       NetworkCollector.classifyAddrs (skipped ++ addr :: rest) =
         NetworkCollector.classifyAddrs [addr])
  ∧ (∀ host name e,
       host name = Err e →
       NetworkCollector.classifyInterface host name = "private")
  ∧ (∀ host name e,
       host name = Ok {| net.Addrs := Err e |} →
       NetworkCollector.classifyInterface host name = "private")
  ∧ (∀ host name addrs,
       host name = Ok {| net.Addrs := Ok addrs |} →
       NetworkCollector.classifyInterface host name =
         NetworkCollector.classifyAddrs addrs).
Proof.
  assert (Hhead : ∀ addrs,
     NetworkCollector.classifyAddrs addrs =
       match head (omap Derived.usableIP addrs) with
       | Some ip =>
           if NetworkCollector.isPrivateIP ip then "private" else "public"
       | None => "private"
       end).
  { induction addrs as [|addr rest IH]; [done|].
    cbn [NetworkCollector.classifyAddrs omap list_omap].
    unfold Derived.usableIP at 1.
    destruct (match net.ParseCIDR addr with
              | Some ip => Some ip
              | None => net.ParseIP addr
              end) as [ip|]; [|done].
    by destruct (negb (net.IsLoopback ip) && negb (net.IsUnspecified ip)). }
  split; [exact Hhead|]. split; [|split; [|split]].
  - intros skipped addr ip rest Hskipped Haddr.
    rewrite !Hhead, omap_app, Hskipped. simpl. by rewrite Haddr.
  - intros host name e Hhost. unfold NetworkCollector.classifyInterface.
    by rewrite Hhost.
  - intros host name e Hhost. unfold NetworkCollector.classifyInterface.
    by rewrite Hhost.
  - intros host name addrs Hhost. unfold NetworkCollector.classifyInterface.
    by rewrite Hhost.
Qed.

(** A loopback address first, then a public and a private one: the
    public address decides. *)
Lemma interface_label_from_first_usable_address_witness :
  NetworkCollector.classifyAddrs
    ([cidrAddr "127.0.0.1/8" [127; 0; 0; 1]]
       ++ cidrAddr "8.8.8.8/24" [8; 8; 8; 8]
       :: [cidrAddr "10.0.0.1/8" [10; 0; 0; 1]]) = "public".
Proof.
  rewrite (proj1 (proj2 interface_label_from_first_usable_address)
             [cidrAddr "127.0.0.1/8" [127; 0; 0; 1]]
             (cidrAddr "8.8.8.8/24" [8; 8; 8; 8]) [8; 8; 8; 8]
             [cidrAddr "10.0.0.1/8" [10; 0; 0; 1]]).
  - vm_compute. reflexivity.
  - vm_compute. reflexivity.
  - vm_compute. reflexivity.
Defined.

(** ** The private address blocks *)

Lemma land_byte_255 b : 0 <= b < 256 → Z.land b 255 = b.
Proof.
  intros Hb. change 255 with (Z.ones 8).
  rewrite Z.land_ones by lia. by apply Z.mod_small.
Qed.

Lemma land_byte_240 b :
  0 <= b < 256 → Z.land 16 240 = Z.land b 240 ↔ 16 <= b <= 31.
Proof.
  intros Hb.
  assert (Forall (λ b, bool_decide (Z.land 16 240 = Z.land b 240)
                       = bool_decide (16 <= b <= 31)) (seqZ 0 256)) as Hall.
  { apply (bool_decide_unpack _). vm_compute. exact I. }
  rewrite Forall_forall in Hall.
  specialize (Hall b ltac:(apply elem_of_seqZ; lia)).
  rewrite <- (bool_decide_spec (Z.land 16 240 = Z.land b 240)), Hall.
  apply bool_decide_spec.
Qed.

Lemma To4_v4 a b c d : net.To4 [a; b; c; d] = Some [a; b; c; d].
Proof. unfold net.To4. by destruct (decide _). Qed.

Lemma Contains_To4 n ip ip4 :
  net.To4 ip = Some ip4 →
  net.Contains n ip =
    if decide (length ip4 = length (net.NetIP n)) then
      forallb (λ '(nn, m, b), bool_decide (Z.land nn m = Z.land b m))
              (zip (zip (net.NetIP n) (net.Mask n)) ip4)
    else false.
Proof. unfold net.Contains. by intros ->. Qed.

Lemma isPrivateIP_v4 a b c d :
  0 <= a < 256 → 0 <= b < 256 →
  NetworkCollector.isPrivateIP [a; b; c; d] = true ↔
  a = 10 ∨ (a = 172 ∧ 16 <= b <= 31) ∨ (a = 192 ∧ b = 168).
Proof.
  intros Ha Hb.
  unfold NetworkCollector.isPrivateIP, NetworkCollector.privateBlocks.
  cbn [existsb]. rewrite !(Contains_To4 _ _ _ (To4_v4 a b c d)).
  cbn [length net.NetIP net.Mask replicate].
  destruct (decide (4%nat = 4%nat)); [|done].
  destruct (decide (4%nat = 16%nat)); [done|].
  cbn [zip_with forallb].
  rewrite !Z.land_0_r, !andb_true_r, orb_false_r.
  rewrite !orb_true_iff, !andb_true_iff, !bool_decide_eq_true.
  rewrite (land_byte_255 a), (land_byte_255 b) by done.
  rewrite (land_byte_240 b) by done.
  change (Z.land 10 255) with 10. change (Z.land 172 255) with 172.
  change (Z.land 192 255) with 192. change (Z.land 168 255) with 168.
  intuition lia.
Qed.

Lemma isPrivateIP_mapped a b c d :
  NetworkCollector.isPrivateIP (replicate 10 0 ++ [255; 255; a; b; c; d]) =
    NetworkCollector.isPrivateIP [a; b; c; d].
Proof.
  assert (net.To4 (replicate 10 0 ++ [255; 255; a; b; c; d])
          = Some [a; b; c; d]) as Hto4.
  { unfold net.To4. cbn [replicate app length].
    destruct (decide (16%nat = 4%nat)); [done|].
    destruct (decide _) as [_|Hn]; [done|].
    exfalso. apply Hn. done. }
  unfold NetworkCollector.isPrivateIP, NetworkCollector.privateBlocks.
  cbn [existsb].
  by rewrite !(Contains_To4 _ _ _ (To4_v4 a b c d)), !(Contains_To4 _ _ _ Hto4).
Qed.

Lemma isPrivateIP_v6 b0 rest :
  length rest = 15%nat →
  net.To4 (b0 :: rest) = None →
  0 <= b0 < 256 →
  NetworkCollector.isPrivateIP (b0 :: rest) = true ↔ b0 = 253.
Proof.
  intros Hlen Hto4 Hb.
  unfold NetworkCollector.isPrivateIP, NetworkCollector.privateBlocks.
  cbn [existsb]. unfold net.Contains. rewrite Hto4.
  cbn [default from_option id length net.NetIP net.Mask replicate]. rewrite Hlen.
  destruct (decide (16%nat = 4%nat)); [done|].
  destruct (decide (16%nat = 16%nat)); [|done].
  do 15 (destruct rest as [|? rest]; [done|]).
  cbn [zip_with forallb].
  rewrite !Z.land_0_r, !andb_true_r, !orb_false_l, orb_false_r.
  rewrite bool_decide_eq_true, (land_byte_255 b0) by done.
  change (Z.land 253 255) with 253. split; done.
Qed.

(** X7.  Which addresses count as private.  An IPv4 address a.b.c.d is
    private exactly when it lies in 10.0.0.0/8, 172.16.0.0/12 or
    192.168.0.0/16; an IPv4-mapped IPv6 address is judged as the IPv4
    address it carries; any other IPv6 address is private exactly when
    its first byte is fd (the block fd00::/8). *)
Theorem private_address_ranges :
  (∀ a b c d,
     0 <= a < 256 → 0 <= b < 256 →
     NetworkCollector.isPrivateIP [a; b; c; d] = true ↔
     a = 10 ∨ (a = 172 ∧ 16 <= b <= 31) ∨ (a = 192 ∧ b = 168))
  ∧ (∀ a b c d,
       NetworkCollector.isPrivateIP
         (replicate 10 0 ++ [255; 255; a; b; c; d]) =
         NetworkCollector.isPrivateIP [a; b; c; d])
  ∧ (∀ b0 rest,
       length rest = 15%nat →
       net.To4 (b0 :: rest) = None →
       0 <= b0 < 256 →
       NetworkCollector.isPrivateIP (b0 :: rest) = true ↔ b0 = 253).
Proof.
  split; [exact isPrivateIP_v4|]. split; [exact isPrivateIP_mapped|].
  exact isPrivateIP_v6.
Qed.

(** 172.31.255.255 is the last private address of its block, 172.32.0.0
    is public, and fd00::1 is private. *)
Lemma private_address_ranges_witness :
  NetworkCollector.isPrivateIP [172; 31; 255; 255] = true
  ∧ NetworkCollector.isPrivateIP [172; 32; 0; 0] ≠ true
  ∧ NetworkCollector.isPrivateIP (253 :: replicate 14 0 ++ [1]) = true.
Proof.
  split; [|split].
  - apply (proj1 private_address_ranges 172 31 255 255); lia.
  - intros Hpriv.
    apply (proj1 private_address_ranges 172 32 0 0) in Hpriv; lia.
  - apply (proj2 (proj2 private_address_ranges) 253 (replicate 14 0 ++ [1]));
      [reflexivity|vm_compute; reflexivity|lia|reflexivity].
Defined.
